(** * TalentShift: the upload page's simulation score, the score bands,
      the weight editor and the mock dataset

    A shallow embedding of the parts of the TalentShift front end that carry
    rules: [processFile] of the upload page (pages/UploadCV), [getScoreClass]
    of the dashboard and of the candidate page, the weight total of the job
    template editor (pages/JobTemplate.tsx) and the records of
    data/mockData.ts.  The scorers of the back end are not part of the front
    end; where a statement needs them they are written from the specification
    and marked as such. *)

From Stdlib Require Import ZArith NArith List Lia Bool String Ascii QArith.
From Stdlib Require Import DecimalString Permutation Qround.
From Stdlib Require Floats Uint63.
Import ListNotations.

Local Open Scope Z_scope.

(** ** JavaScript values used by the pages *)

Module JS.

(** A JavaScript string is a sequence of UTF-16 code units. *)
Definition jsstring := list Z.

Definition code_unit (c : Z) : Prop := 0 <= c < 65536.

(** The numbers met in the hash loop are integers far below 2^53, where
    double arithmetic is exact, or NaN ([None]). *)
Definition number := option Z.

Definition add (a b : number) : number :=
  match a, b with
  | Some x, Some y => Some (x + y)
  | _, _ => None
  end.

Definition sub (a b : number) : number :=
  match a, b with
  | Some x, Some y => Some (x - y)
  | _, _ => None
  end.

(** ToInt32: NaN goes to 0, an integer to its representative in
    [-2^31, 2^31). *)
Definition wrap32 (x : Z) : Z := (x + 2 ^ 31) mod 2 ^ 32 - 2 ^ 31.

Definition ToInt32 (a : number) : Z :=
  match a with
  | Some x => wrap32 x
  | None => 0
  end.

(** [a << k] *)
Definition shl (a : number) (k : Z) : Z :=
  wrap32 (Z.shiftl (ToInt32 a) (k mod 32)).

(** [a & b] *)
Definition band (a b : number) : Z := Z.land (ToInt32 a) (ToInt32 b).

(** [s.charCodeAt(i)]: NaN when [i] is not an index of [s]. *)
Definition charCodeAt (s : jsstring) (i : nat) : number := nth_error s i.

Definition of_ascii (a : ascii) : Z := Z.of_N (N_of_ascii a).

Definition of_string (s : string) : jsstring :=
  map of_ascii (list_ascii_of_string s).

(** The exact decimal digits of [n], ["0"] for zero. *)
Definition decimal (n : N) : jsstring :=
  of_string (NilZero.string_of_uint (N.to_uint n)).

(** The double nearest to the integer [v], the one with the even
    significand when two are as near: [v] itself below 2^53, and above it
    the nearest multiple of the power of two that leaves 53 bits.  (For
    integers below [2^1024 - 2^970], where doubles end.) *)
Definition roundDouble (v : N) : N :=
  if (v <? 2 ^ 53)%N then v
  else
    let e := (N.log2 v - 52)%N in
    let q := (v / 2 ^ e)%N in
    let r := (v mod 2 ^ e)%N in
    let half := (2 ^ (e - 1))%N in
    let q' := if (half <? r)%N || ((r =? half)%N && N.odd q) then (q + 1)%N else q in
    (q' * 2 ^ e)%N.

(** Of the multiples of [scale] just below and just above the double [x],
    the one that reads back as [x]; the nearer when both do, and the one
    with the even digit when they are as near. *)
Definition nearby (x scale : N) : option N :=
  let lo := (x / scale * scale)%N in
  let hi := (lo + scale)%N in
  match (roundDouble lo =? x)%N, (roundDouble hi =? x)%N with
  | true, true =>
      if (x - lo <? hi - x)%N then Some lo
      else if (hi - x <? x - lo)%N then Some hi
      else if N.even (x / scale) then Some lo else Some hi
  | true, false => Some lo
  | false, true => Some hi
  | false, false => None
  end.

Fixpoint search (x : N) (scales : list N) : N :=
  match scales with
  | [] => x
  | scale :: rest =>
      match nearby x scale with
      | Some v => v
      | None => search x rest
      end
  end.

(** The powers of ten from the one of the first digit of [x] down to 1. *)
Definition scales (x : N) : list N :=
  map (fun j => (10 ^ N.of_nat j)%N) (rev (seq 0 (List.length (decimal x)))).

(** The integer with the fewest significant digits that reads back as the
    double [x]: what [Number.prototype.toString] prints. *)
Definition shortest (x : N) : N := search x (scales x).

Fixpoint dropZeros (s : jsstring) : jsstring :=
  match s with
  | 48 :: s' => dropZeros s'
  | _ => s
  end.

(** The form [d.ddde+n] that numbers from 10^21 on are printed in. *)
Definition exponential (v : N) : jsstring :=
  let digits := decimal v in
  let e := decimal (N.of_nat (List.length digits - 1)) in
  match rev (dropZeros (rev digits)) with
  | [] => digits
  | [d] => d :: of_string "e+" ++ e
  | d :: more => d :: 46 :: more ++ of_string "e+" ++ e
  end.

(** The integers from here on are nearer to 2^1024 than to the largest
    double, and are held as [Infinity]. *)
Definition overflow : N := (2 ^ 1024 - 2 ^ 970)%N.

(** [n.toString()] for a byte count [n], which JavaScript holds as the
    nearest double: the exact digits below 2^53, above it the shortest
    digits that read back as the same double, filled up with zeros, from
    10^21 on the exponential form, and ["Infinity"] where doubles end. *)
Definition toString (n : N) : jsstring :=
  if (overflow <=? n)%N then of_string "Infinity"
  else
    let v := shortest (roundDouble n) in
    if (v <? 10 ^ 21)%N then decimal v else exponential v.

(** [Math.abs] and [%] on integers; [%] truncates like [Z.rem]. *)
Definition abs (x : Z) : Z := Z.abs x.
Definition rem (x y : Z) : Z := Z.rem x y.

Fixpoint eqb (s t : jsstring) : bool :=
  match s, t with
  | [], [] => true
  | c :: s', d :: t' => (c =? d) && eqb s' t'
  | _, _ => false
  end.

End JS.

(** ** The simulation score of [processFile]

    The branch [if (!backendAvailable)] of [processFile] in the upload page
    (the fourth document of data/mockData.ts, lines 942-958). *)

Module Fallback.

Import JS.

(** One turn of the loop body:
    [hash = ((hash << 5) - hash) + char; hash = hash & hash]. *)
Definition hashStep (hash : Z) (char : number) : Z :=
  let hash1 := add (sub (Some (shl (Some hash) 5)) (Some hash)) char in
  band hash1 hash1.

(** [for (let i = 0; i < str.length; i++)], with [n] turns left. *)
Fixpoint hashLoop (str : jsstring) (n : nat) (i : nat) (hash : Z) : Z :=
  match n with
  | O => hash
  | S n' => hashLoop str n' (S i) (hashStep hash (charCodeAt str i))
  end.

Definition hashOf (str : jsstring) : Z :=
  hashLoop str (List.length str) 0%nat 0.

(** [const score = (Math.abs(hash) % 61) + 40] for
    [str = file.name + file.size.toString()]. *)
Definition fallbackScore (name : jsstring) (size : N) : Z :=
  let str := name ++ toString size in
  let hash := hashOf str in
  rem (abs hash) 61 + 40.

End Fallback.

(** The estimator as the specification words it: a signed 32-bit rolling
    hash with step [h -> 31 * h + c] over the file name followed by the
    decimal string of the size, then [abs h mod 61 + 40]. *)

Module EstimateSpec.

Definition int32 (x : Z) : Z := (x + 2147483648) mod 4294967296 - 2147483648.

Definition roll (h c : Z) : Z := int32 (31 * h + c).

Definition rolling_hash (s : JS.jsstring) : Z := fold_left roll s 0.

Definition estimate (filename : JS.jsstring) (fileSizeBytes : N) : Z :=
  Z.abs (rolling_hash (filename ++ JS.decimal fileSizeBytes)) mod 61 + 40.

End EstimateSpec.

(** ** Scores as shown: colour classes *)

Inductive ScoreClass : Set := high | medium | low.

Inductive ScoreColor : Set := color_success | color_warning | color_danger.

(** ** pages/UploadCV: the upload list and [processFile]

    The upload page is the fourth document of data/mockData.ts (lines
    841-1251); [processFile] is at lines 904-981 and the rows of the list at
    lines 1137-1199. *)

Module DomFile.

(** The fields of a browser [File] that the page reads. *)
Record t : Set := { name : JS.jsstring; size : N; type : string }.

End DomFile.

Module UploadCV.

Import JS.

Inductive FileStatus : Set := Uploading | Parsing | Scored | Error.

(** [interface UploadedFile]; an optional field that is absent or
    [undefined] is [None]. *)
Record UploadedFile : Set := {
  id : string;
  name : jsstring;
  size : N;
  status : FileStatus;
  progress : Z;
  score : option Q;
  candidateId : option Z;
  candidateName : option jsstring;
  error : option string
}.

Definition set_progress (i : Z) (f : UploadedFile) : UploadedFile :=
  {| id := id f; name := name f; size := size f; status := status f;
     progress := i; score := score f; candidateId := candidateId f;
     candidateName := candidateName f; error := error f |}.

Definition set_parsing (f : UploadedFile) : UploadedFile :=
  {| id := id f; name := name f; size := size f; status := Parsing;
     progress := 100; score := score f; candidateId := candidateId f;
     candidateName := candidateName f; error := error f |}.

(** [{ ...f, status: 'scored', score }] *)
Definition set_scored (s : Q) (f : UploadedFile) : UploadedFile :=
  {| id := id f; name := name f; size := size f; status := Scored;
     progress := progress f; score := Some s; candidateId := candidateId f;
     candidateName := candidateName f; error := error f |}.

(** [{ ...f, status: 'scored', score, candidateId, candidateName }] *)
Definition set_backend_scored (s : Q) (cid : Z) (cname : option jsstring)
    (f : UploadedFile) : UploadedFile :=
  {| id := id f; name := name f; size := size f; status := Scored;
     progress := progress f; score := Some s; candidateId := Some cid;
     candidateName := cname; error := error f |}.

(** [{ ...f, status: 'error', error }] *)
Definition set_error (msg : string) (f : UploadedFile) : UploadedFile :=
  {| id := id f; name := name f; size := size f; status := Error;
     progress := progress f; score := score f; candidateId := candidateId f;
     candidateName := candidateName f; error := Some msg |}.

(** What [api.scoreCV] hands back, as far as the page reads it. *)
Record ScoreResult : Set := {
  candidate_id : Z;
  candidate_name : option jsstring;
  total_score : Q
}.

(** The promise of [api.scoreCV]: resolved, or rejected with a thrown
    value that is an [Error] with a message ([Some]) or anything else. *)
Inductive ApiOutcome : Set :=
| Resolved (result : ScoreResult)
| Rejected (message : option string).

(** What the component holds besides the list when [processFile] runs:
    the health flag ([null] until the check answers), the id of the loaded
    job, the id drawn from [Date.now()] and [Math.random()], and the
    back end behind [api.scoreCV]. *)
Record Env : Type := {
  backendAvailable : option bool;
  job : option Z;
  fileId : string;
  scoreCV : DomFile.t -> Z -> bool -> ApiOutcome
}.

Definition truthy_flag (b : option bool) : bool :=
  match b with Some true => true | _ => false end.

Definition truthy_num (n : option Z) : bool :=
  match n with Some z => negb (z =? 0) | None => false end.

Definition truthy_str (s : option jsstring) : bool :=
  match s with Some (_ :: _) => true | _ => false end.

(** [x || undefined] on a string that may be null *)
Definition or_undefined (s : option jsstring) : option jsstring :=
  if truthy_str s then s else None.

(** [job?.id || 1] *)
Definition jobIdOr1 (j : option Z) : Z :=
  match j with
  | Some z => if z =? 0 then 1 else z
  | None => 1
  end.

Definition validTypes : list string :=
  [ "application/pdf"%string;
    "application/vnd.openxmlformats-officedocument.wordprocessingml.document"%string ].

Definition includes (l : list string) (x : string) : bool :=
  existsb (String.eqb x) l.

Inductive Alert : Set :=
| AlertUnsupported (name : jsstring)
| AlertDuplicate (name : jsstring).

(** An argument of [setFiles(prev => ...)]. *)
Definition Updater : Set := list UploadedFile -> list UploadedFile.

Definition onId (fileId : string) (g : UploadedFile -> UploadedFile) : Updater :=
  map (fun f => if String.eqb (id f) fileId then g f else f).

(** [for (let i = 0; i <= 100; i += 25)] *)
Definition progressSteps : list Z := [0; 25; 50; 75; 100].

Definition isDuplicate (files : list UploadedFile) (file : DomFile.t) : bool :=
  existsb (fun f => JS.eqb (name f) (DomFile.name file)
                    && (size f =? DomFile.size file)%N) files.

Definition newFile (fileId : string) (file : DomFile.t) : UploadedFile :=
  {| id := fileId; name := DomFile.name file; size := DomFile.size file;
     status := Uploading; progress := 0; score := None;
     candidateId := None; candidateName := None; error := None |}.

Definition errorMessage (m : option string) : string :=
  match m with Some s => s | None => "Unknown error"%string end.

(** A call [api.scoreCV(file, jobId, save)]. *)
Record Request : Set := { req_file : DomFile.t; req_jobId : Z; req_save : bool }.

(** What one call of [processFile] does to its surroundings: the alerts
    it raises, the requests it sends, and the updaters it hands to
    [setFiles], in order. *)
Record Effects : Set := {
  alerts : list Alert;
  requests : list Request;
  updaters : list Updater
}.

(** The steps every accepted file goes through before it is scored. *)
Definition uploadSteps (fileId : string) (file : DomFile.t) : list Updater :=
  (fun prev => prev ++ [newFile fileId file])
    :: map (fun i => onId fileId (set_progress i)) progressSteps
    ++ [onId fileId set_parsing].

(** [processFile]; [files] is the list the closure sees. *)
Definition processFile (env : Env) (files : list UploadedFile)
    (file : DomFile.t) : Effects :=
  if negb (includes validTypes (DomFile.type file)) then
    {| alerts := [AlertUnsupported (DomFile.name file)];
       requests := []; updaters := [] |}
  else if isDuplicate files file then
    {| alerts := [AlertDuplicate (DomFile.name file)];
       requests := []; updaters := [] |}
  else
    let fileId := fileId env in
    if negb (truthy_flag (backendAvailable env)) then
      let score := Fallback.fallbackScore (DomFile.name file) (DomFile.size file) in
      {| alerts := []; requests := [];
         updaters := uploadSteps fileId file
                     ++ [onId fileId (set_scored (inject_Z score))] |}
    else
      let request :=
        {| req_file := file; req_jobId := jobIdOr1 (job env); req_save := true |} in
      match scoreCV env file (jobIdOr1 (job env)) true with
      | Resolved result =>
          {| alerts := []; requests := [request];
             updaters := uploadSteps fileId file
               ++ [onId fileId
                     (set_backend_scored (total_score result) (candidate_id result)
                        (or_undefined (candidate_name result)))] |}
      | Rejected m =>
          {| alerts := []; requests := [request];
             updaters := uploadSteps fileId file
               ++ [onId fileId (set_error (errorMessage m))] |}
      end.

(** The list after the updaters ran on [prev]. *)
Definition run (us : list Updater) (prev : list UploadedFile) : list UploadedFile :=
  fold_left (fun st u => u st) us prev.

(** One call on the list the page shows. *)
Definition upload (env : Env) (files : list UploadedFile) (file : DomFile.t)
    : list UploadedFile :=
  run (updaters (processFile env files file)) files.

(** The entry a simulated upload ends as. *)
Definition simulated (fileId : string) (file : DomFile.t) : UploadedFile :=
  {| id := fileId; name := DomFile.name file; size := DomFile.size file;
     status := Scored; progress := 100;
     score := Some (inject_Z (Fallback.fallbackScore (DomFile.name file)
                               (DomFile.size file)));
     candidateId := None; candidateName := None; error := None |}.

(** What the steps of a simulated upload do to an entry that carries the
    new id. *)
Definition simulatedTouch (file : DomFile.t) (f : UploadedFile) : UploadedFile :=
  set_scored (inject_Z (Fallback.fallbackScore (DomFile.name file) (DomFile.size file)))
    (set_parsing f).

(** *** What a row of the list shows *)

Inductive StatusTag : Set :=
| TagScored | TagParsing | TagUploading | TagError (title : option string).

Definition getStatusTag (status : FileStatus) (error : option string) : StatusTag :=
  match status with
  | Scored => TagScored
  | Parsing => TagParsing
  | Uploading => TagUploading
  | Error => TagError error
  end.

Definition getScoreColor (score : Q) : ScoreColor :=
  if Qle_bool 80 score then color_success
  else if Qle_bool 60 score then color_warning
  else color_danger.

(** The score link: target ([None] is ['#']), colour and the number
    given to [toFixed(1)]. *)
Record ScoreLink : Set := {
  link_to : option Z;
  link_color : ScoreColor;
  link_value : Q
}.

Record Row : Set := {
  row_error_background : bool;
  row_label : jsstring;
  row_size : N;
  row_progress : Z;
  row_tag : StatusTag;
  row_score : option ScoreLink
}.

Definition statusIsError (s : FileStatus) : bool :=
  match s with Error => true | _ => false end.

Definition renderRow (file : UploadedFile) : Row :=
  {| row_error_background := statusIsError (status file);
     row_label := if truthy_str (candidateName file)
                  then match candidateName file with Some n => n | None => name file end
                  else name file;
     row_size := size file;
     row_progress := progress file;
     row_tag := getStatusTag (status file) (error file);
     row_score :=
       match score file with
       | Some s =>
           Some {| link_to := if truthy_num (candidateId file)
                              then candidateId file else None;
                   link_color := getScoreColor s;
                   link_value := s |}
       | None => None
       end |}.

Inductive Banner : Set := BannerSimulation | BannerConnected.

(** [backendAvailable === false] and [backendAvailable === true] *)
Definition banner (b : option bool) : option Banner :=
  match b with
  | Some false => Some BannerSimulation
  | Some true => Some BannerConnected
  | None => None
  end.

(** The page as drawn: the banner for the flag it holds now, and the
    rows of the list. *)
Definition renderPage (flag : option bool) (files : list UploadedFile)
    : option Banner * list Row :=
  (banner flag, map renderRow files).

(** A file that [processFile] takes on: a valid type and no entry of the
    same name and size in the list it sees. *)
Definition accepted (files : list UploadedFile) (file : DomFile.t) : Prop :=
  includes validTypes (DomFile.type file) = true /\ isDuplicate files file = false.

(** The simulation is used: [!backendAvailable]. *)
Definition simulation (env : Env) : Prop := truthy_flag (backendAvailable env) = false.

(** "The estimate is tagged": whenever one upload is scored by the
    simulation and another by the back end, their rows are drawn
    differently. *)
Definition estimate_rows_differ : Prop :=
  forall (sim real : Env) (files : list UploadedFile) (file : DomFile.t)
         (result : ScoreResult),
    accepted files file ->
    simulation sim ->
    backendAvailable real = Some true ->
    scoreCV real file (jobIdOr1 (job real)) true = Resolved result ->
    map renderRow (upload sim files file) <> map renderRow (upload real files file).

End UploadCV.

(** ** pages/Dashboard and pages/CandidateDetail: the score class

    [getScoreClass] stands twice in data/mockData.ts, at lines 217-221 (the
    dashboard) and at lines 552-556 (the candidate page). *)

Module Dashboard.

Definition getScoreClass (score : Q) : ScoreClass :=
  if Qle_bool 80 score then high
  else if Qle_bool 60 score then medium
  else low.

End Dashboard.

Module CandidateDetail.

Definition getScoreClass (score : Q) : ScoreClass :=
  if Qle_bool 80 score then high
  else if Qle_bool 60 score then medium
  else low.

End CandidateDetail.

(** ** Text helpers on byte strings *)

Module Str.

Local Open Scope char_scope.

(** The ASCII white space that [trim] removes (tab, line feed, vertical
    tab, form feed, carriage return, space).  On texts of ASCII characters
    this is all that [trim] removes; beyond ASCII it also removes U+00A0,
    U+FEFF and the Unicode space separators, which a byte string does not
    tell apart. *)
Definition is_space (c : ascii) : bool :=
  let n := nat_of_ascii c in
  ((9 <=? n)%nat && (n <=? 13)%nat) || (n =? 32)%nat.

Fixpoint trimStart (s : string) : string :=
  match s with
  | String c s' => if is_space c then trimStart s' else s
  | EmptyString => EmptyString
  end.

Fixpoint rev_onto (s acc : string) : string :=
  match s with
  | String c s' => rev_onto s' (String c acc)
  | EmptyString => acc
  end.

Definition rev (s : string) : string := rev_onto s EmptyString.

Definition trim (s : string) : string := rev (trimStart (rev (trimStart s))).

(** [s.split(sep)] for a one-character separator *)
Fixpoint split (sep : ascii) (s : string) : list string :=
  match s with
  | EmptyString => [EmptyString]
  | String c s' =>
      if Ascii.eqb c sep then EmptyString :: split sep s'
      else match split sep s' with
           | h :: t => String c h :: t
           | [] => [String c EmptyString]
           end
  end.

Definition nonEmpty (s : string) : bool :=
  match s with EmptyString => false | _ => true end.

(** [s.split(',').map(s => s.trim()).filter(Boolean)] *)
Definition splitList (s : string) : list string :=
  filter nonEmpty (map trim (split "," s)).

Definition lower_ascii (c : ascii) : ascii :=
  let n := nat_of_ascii c in
  if ((65 <=? n)%nat && (n <=? 90)%nat)%bool then ascii_of_nat (n + 32) else c.

Fixpoint lower (s : string) : string :=
  match s with
  | String c s' => String (lower_ascii c) (lower s')
  | EmptyString => EmptyString
  end.

End Str.

(** ** services/api.ts: the requirement record *)

Module Api.

Record EducationReq : Set :=
  { edu_min_level : string; edu_preferred_major : list string; edu_weight : Z }.
Record ExperienceReq : Set :=
  { exp_min_years : Z; exp_relevant_titles : list string; exp_weight : Z }.
Record SkillsReq : Set :=
  { sk_required : list string; sk_preferred : list string; sk_weight : Z }.
Record BootcampReq : Set :=
  { bc_preferred_providers : list string; bc_weight : Z }.
Record PortfolioReq : Set :=
  { pf_required : bool; pf_preferred_platforms : list string;
    pf_min_projects : Z; pf_weight : Z }.
Record LocationReq : Set :=
  { loc_allowed : list string; loc_weight : Z }.

(** [interface JobRequirements] *)
Record JobRequirements : Set := {
  education : EducationReq;
  experience : ExperienceReq;
  skills : SkillsReq;
  bootcamp : BootcampReq;
  portfolio : PortfolioReq;
  location : LocationReq
}.

(** The body of [createJob] and [updateJob]. *)
Record JobData : Set :=
  { title : string; department : string; requirements : JobRequirements }.

End Api.

(** ** pages/JobTemplate.tsx: the weight editor

    [totalWeight] is at line 192, the card that shows it at lines 424-470,
    [buildRequirements] at lines 135-165 and [handleSave] at lines 167-190. *)

Module JobTemplate.

(** [interface WeightState]; the sliders hand over [parseInt] of their
    value, an integer. *)
Record WeightState : Set := {
  education : Z;
  experience : Z;
  skills : Z;
  bootcamp : Z;
  portfolio : Z;
  location : Z
}.

Inductive WeightKey : Set :=
  k_education | k_experience | k_skills | k_bootcamp | k_portfolio | k_location.

(** [setWeights(prev => ({ ...prev, [key]: value }))] *)
Definition handleWeightChange (key : WeightKey) (value : Z) (prev : WeightState)
    : WeightState :=
  match key with
  | k_education =>
      {| education := value; experience := experience prev; skills := skills prev;
         bootcamp := bootcamp prev; portfolio := portfolio prev; location := location prev |}
  | k_experience =>
      {| education := education prev; experience := value; skills := skills prev;
         bootcamp := bootcamp prev; portfolio := portfolio prev; location := location prev |}
  | k_skills =>
      {| education := education prev; experience := experience prev; skills := value;
         bootcamp := bootcamp prev; portfolio := portfolio prev; location := location prev |}
  | k_bootcamp =>
      {| education := education prev; experience := experience prev; skills := skills prev;
         bootcamp := value; portfolio := portfolio prev; location := location prev |}
  | k_portfolio =>
      {| education := education prev; experience := experience prev; skills := skills prev;
         bootcamp := bootcamp prev; portfolio := value; location := location prev |}
  | k_location =>
      {| education := education prev; experience := experience prev; skills := skills prev;
         bootcamp := bootcamp prev; portfolio := portfolio prev; location := value |}
  end.

(** [Object.values(weights)], in the order of the keys. *)
Definition Object_values (w : WeightState) : list Z :=
  [education w; experience w; skills w; bootcamp w; portfolio w; location w].

(** [Object.values(weights).reduce((a, b) => a + b, 0)] on whole weights,
    as the sliders give them.  [JobTemplateDoubles.totalWeight] is the fold
    on doubles, which a loaded job may bring in. *)
Definition totalWeight (w : WeightState) : Z :=
  fold_left (fun a b => a + b) (Object_values w) 0.

(** The right-hand card: the total in the pie's centre with its colour,
    and the warning box with the total it quotes, when it is drawn. *)
Record WeightCard : Set := {
  shown_total : Z;
  total_color : ScoreColor;
  warning : option Z
}.

Definition weightCard (w : WeightState) : WeightCard :=
  let totalWeight := totalWeight w in
  {| shown_total := totalWeight;
     total_color := if totalWeight =? 100 then color_success else color_danger;
     warning := if negb (totalWeight =? 100) then Some totalWeight else None |}.

(** The state of the form. [id] is the route parameter. *)
Record FormState : Set := {
  id : option string;
  backendAvailable : option bool;
  title : string;
  department : string;
  weights : WeightState;
  educationLevel : string;
  educationMajors : string;
  experienceYears : Z;
  requiredSkills : list string;
  preferredSkills : list string;
  bootcampProviders : list string;
  portfolioPlatforms : list string;
  minProjects : Z;
  allowedLocations : string
}.

(** [!!id] *)
Definition isEditing (st : FormState) : bool :=
  match id st with Some s => Str.nonEmpty s | None => false end.

Definition buildRequirements (st : FormState) : Api.JobRequirements :=
  {| Api.education :=
       {| Api.edu_min_level := educationLevel st;
          Api.edu_preferred_major := Str.splitList (educationMajors st);
          Api.edu_weight := education (weights st) |};
     Api.experience :=
       {| Api.exp_min_years := experienceYears st;
          Api.exp_relevant_titles := ["Developer"; "Engineer"; "Programmer"]%string;
          Api.exp_weight := experience (weights st) |};
     Api.skills :=
       {| Api.sk_required := requiredSkills st;
          Api.sk_preferred := preferredSkills st;
          Api.sk_weight := skills (weights st) |};
     Api.bootcamp :=
       {| Api.bc_preferred_providers := bootcampProviders st;
          Api.bc_weight := bootcamp (weights st) |};
     Api.portfolio :=
       {| Api.pf_required := true;
          Api.pf_preferred_platforms := portfolioPlatforms st;
          Api.pf_min_projects := minProjects st;
          Api.pf_weight := portfolio (weights st) |};
     Api.location :=
       {| Api.loc_allowed := Str.splitList (allowedLocations st);
          Api.loc_weight := location (weights st) |} |}.

(** What [handleSave] does first: the alert, or the request it sends
    ([updateJob] takes [parseInt] of the route parameter). *)
Inductive SaveStep : Set :=
| AlertUnavailable
| CallUpdateJob (id : string) (job : Api.JobData)
| CallCreateJob (job : Api.JobData).

Definition handleSave (st : FormState) : SaveStep :=
  if negb (UploadCV.truthy_flag (backendAvailable st)) then AlertUnavailable
  else
    let jobData :=
      {| Api.title := title st; Api.department := department st;
         Api.requirements := buildRequirements st |} in
    match id st with
    | Some i => if Str.nonEmpty i then CallUpdateJob i jobData else CallCreateJob jobData
    | None => CallCreateJob jobData
    end.

(** The weights a requirement record carries, read back. *)
Definition weightsOf (r : Api.JobRequirements) : WeightState :=
  {| education := Api.edu_weight (Api.education r);
     experience := Api.exp_weight (Api.experience r);
     skills := Api.sk_weight (Api.skills r);
     bootcamp := Api.bc_weight (Api.bootcamp r);
     portfolio := Api.pf_weight (Api.portfolio r);
     location := Api.loc_weight (Api.location r) |}.

End JobTemplate.

(** ** data/mockData.ts: the candidates and the job requirements

    [candidates] is at lines 35-163 and [jobRequirements] at lines 172-204.
    The [details] texts, e-mail addresses and telephone numbers are shown
    only and are left out. *)

Module MockData.

Local Open Scope string_scope.

Record Criterion : Set := { c_score : Q; c_weight : Z }.

Record SkillsCriterion : Set :=
  { sk_score : Q; sk_weight : Z; matched : list string; missing : list string }.

Record PortfolioCriterion : Set :=
  { pf_score : Q; pf_weight : Z; platforms : list string }.

Record Breakdown : Set := {
  b_education : Criterion;
  b_experience : Criterion;
  b_skills : SkillsCriterion;
  b_bootcamp : Criterion;
  b_portfolio : PortfolioCriterion;
  b_location : Criterion
}.

Record Education : Set :=
  { level : string; major : string; institution : string; year : Z }.

Record Experience : Set := { years : Z; title : string; company : string }.

(** [interface Candidate] of the mock data; [status] is one of
    ['shortlisted'], ['review'], ['rejected'], ['pending']. *)
Record Candidate : Set := {
  id : string;
  name : string;
  location : string;
  score : Q;
  status : string;
  skills : list (string * bool);
  portfolio : list (string * string);
  bootcamp : option string;
  education : Education;
  experience : Experience;
  scoreBreakdown : Breakdown
}.

Definition crit (s : Z) (w : Z) : Criterion := {| c_score := inject_Z s; c_weight := w |}.

Definition sarah : Candidate :=
  {| id := "1"; name := "Sarah Chen"; location := "Jakarta";
     score := 92.5%Q; status := "shortlisted";
     skills := [("Python", true); ("SQL", true); ("Docker", true)];
     portfolio := [("GitHub", "github.com/sarahchen")];
     bootcamp := Some "Hacktiv8";
     education := {| level := "S1"; major := "Teknik Informatika";
                     institution := "UI"; year := 2020 |};
     experience := {| years := 5; title := "Senior Developer"; company := "Gojek" |};
     scoreBreakdown :=
       {| b_education := crit 90 15;
          b_experience := crit 100 25;
          b_skills := {| sk_score := 100; sk_weight := 40;
                         matched := ["Python"; "SQL"; "Docker"]; missing := [] |};
          b_bootcamp := crit 80 10;
          b_portfolio := {| pf_score := 80; pf_weight := 15; platforms := ["GitHub"] |};
          b_location := crit 100 5 |} |}.

Definition john : Candidate :=
  {| id := "2"; name := "John Doe"; location := "Jakarta";
     score := 78.5%Q; status := "review";
     skills := [("Python", true); ("SQL", true); ("REST API", false)];
     portfolio := [("GitHub", "github.com/johndoe"); ("Website", "johndoe.dev")];
     bootcamp := Some "Dicoding";
     education := {| level := "S1"; major := "Teknik Informatika";
                     institution := "UI"; year := 2020 |};
     experience := {| years := 4; title := "Software Developer"; company := "Tokopedia" |};
     scoreBreakdown :=
       {| b_education := crit 80 15;
          b_experience := crit 100 25;
          b_skills := {| sk_score := 70; sk_weight := 40;
                         matched := ["Python"; "SQL"; "Docker"];
                         missing := ["REST API"] |};
          b_bootcamp := crit 60 10;
          b_portfolio := {| pf_score := 80; pf_weight := 15;
                            platforms := ["GitHub"; "Website"] |};
          b_location := crit 100 5 |} |}.

Definition andi : Candidate :=
  {| id := "3"; name := "Andi Pratama"; location := "Bandung";
     score := 65.0%Q; status := "review";
     skills := [("Python", true); ("SQL", false); ("Docker", false)];
     portfolio := [("LinkedIn", "linkedin.com/in/andipratama")];
     bootcamp := None;
     education := {| level := "S1"; major := "Sistem Informasi";
                     institution := "ITB"; year := 2021 |};
     experience := {| years := 2; title := "Junior Developer"; company := "Startup ABC" |};
     scoreBreakdown :=
       {| b_education := crit 70 15;
          b_experience := crit 60 25;
          b_skills := {| sk_score := 40; sk_weight := 40;
                         matched := ["Python"]; missing := ["SQL"; "Docker"] |};
          b_bootcamp := crit 0 10;
          b_portfolio := {| pf_score := 40; pf_weight := 15; platforms := ["LinkedIn"] |};
          b_location := crit 80 5 |} |}.

Definition budi : Candidate :=
  {| id := "4"; name := "Budi Santoso"; location := "Surabaya";
     score := 42.0%Q; status := "rejected";
     skills := [("Python", false); ("SQL", false); ("Docker", false)];
     portfolio := [];
     bootcamp := None;
     education := {| level := "D3"; major := "Teknik Komputer";
                     institution := "Politeknik"; year := 2022 |};
     experience := {| years := 1; title := "IT Support"; company := "PT Random" |};
     scoreBreakdown :=
       {| b_education := crit 50 15;
          b_experience := crit 30 25;
          b_skills := {| sk_score := 0; sk_weight := 40;
                         matched := []; missing := ["Python"; "SQL"; "Docker"] |};
          b_bootcamp := crit 0 10;
          b_portfolio := {| pf_score := 0; pf_weight := 15; platforms := [] |};
          b_location := crit 60 5 |} |}.

Definition candidates : list Candidate := [sarah; john; andi; budi].

(** [jobRequirements], with the fields of its six criteria side by side and
    the six weights together. *)
Record JobRequirements : Set := {
  jr_title : string;
  jr_department : string;
  minLevel : string;
  preferredMajor : list string;
  minYears : Z;
  relevantTitles : list string;
  required : list string;
  preferred : list string;
  preferredProviders : list string;
  portfolioRequired : bool;
  preferredPlatforms : list string;
  minProjects : Z;
  allowed : list string;
  weights : JobTemplate.WeightState
}.

Definition jobRequirements : JobRequirements :=
  {| jr_title := "Backend Developer";
     jr_department := "Engineering";
     minLevel := "S1";
     preferredMajor := ["Informatika"; "Teknik Komputer"; "Sistem Informasi"];
     minYears := 3;
     relevantTitles := ["Developer"; "Engineer"; "Programmer"];
     required := ["Python"; "SQL"; "REST API"];
     preferred := ["Docker"; "AWS"; "PostgreSQL"];
     preferredProviders :=
       ["Hacktiv8"; "Binar Academy"; "Dicoding"; "Purwadhika"; "Sanbercode"; "Coursera"];
     portfolioRequired := true;
     preferredPlatforms := ["GitHub"; "GitLab"; "Personal Website"; "Behance"; "Dribbble"];
     minProjects := 2;
     allowed := ["Jakarta"; "Bandung"; "Remote"];
     weights := {| JobTemplate.education := 15; JobTemplate.experience := 25;
                   JobTemplate.skills := 40; JobTemplate.bootcamp := 10;
                   JobTemplate.portfolio := 15; JobTemplate.location := 5 |} |}.

End MockData.

(** ** The scoring rules of the back end, from the specification

    The scorers run in the back end, which the front end only calls.  The
    definitions of this module follow the specification's text. *)

Module EngineSpec.

Local Open Scope string_scope.

(** Modelled from the spec: the status derivation of the scoring engine
    (section 4.3, step 4), which the front end does not contain:
    total_score >= 80 gives shortlisted, 60 <= total_score < 80 gives
    review, total_score < 60 gives rejected. *)
Definition derive_status (total_score : Q) : string :=
  if Qle_bool 80 total_score then "shortlisted"
  else if Qle_bool 60 total_score then "review"
  else "rejected".

(** Modelled from the spec: the normalization of the skill matcher
    (section 4.1), case-insensitive and whitespace-trimmed. *)
Definition normalize (s : string) : string := Str.lower (Str.trim s).

(** Modelled from the spec: [match(candidateSkills, requirement)] of the
    skill matcher (section 4.1), an exact match after normalization. *)
Definition skill_match (candidateSkills : list string) (requirement : string) : bool :=
  existsb (fun s => String.eqb (normalize s) (normalize requirement)) candidateSkills.

(** Modelled from the spec: [matchAll(candidateSkills, requiredList)] of
    the skill matcher (section 4.1); both outputs keep the order of the
    requirement list. *)
Definition matchAll (candidateSkills requiredList : list string)
    : list string * list string :=
  (filter (skill_match candidateSkills) requiredList,
   filter (fun r => negb (skill_match candidateSkills r)) requiredList).

(** Modelled from the spec: the bootcamp scorer (section 4.2), absent
    from the front end: any candidate bootcamp among the preferred
    providers gives 80, a bootcamp but none preferred gives 40, no
    bootcamp gives 0. *)
Definition bootcamp_score (bootcamps preferred_providers : list string) : Q :=
  if existsb (fun b => existsb (String.eqb b) preferred_providers) bootcamps then 80
  else match bootcamps with
       | [] => 0
       | _ :: _ => 40
       end.

Definition member_ci (x : string) (l : list string) : bool :=
  existsb (fun a => String.eqb (Str.lower a) (Str.lower x)) l.

(** Modelled from the spec: the location scorer (section 4.2), absent
    from the front end: case-insensitive membership in the allowed set
    gives 100; no location gives 100 when "Remote" is allowed and 0
    otherwise; a location that is not listed gives 60. *)
Definition location_score (location : option string) (allowed : list string) : Q :=
  match location with
  | Some l => if member_ci l allowed then 100 else 60
  | None => if existsb (String.eqb "Remote") allowed then 100 else 0
  end.

(** The bootcamp set of a mock candidate, who names at most one. *)
Definition bootcamps_of (c : MockData.Candidate) : list string :=
  match MockData.bootcamp c with Some b => [b] | None => [] end.

End EngineSpec.

(** ** The mock dataset against the rules *)

Module DatasetRules.

Import MockData.

(** [matched] and [missing] split the list [reqs]: no item in both, and
    together exactly the items of [reqs]. *)
Definition splits (reqs matched missing : list string) : Prop :=
  (forall x, In x matched -> ~ In x missing)
  /\ (forall x, In x reqs <-> In x matched \/ In x missing).

(** Every skills breakdown of the dataset splits the required list of
    [jobRequirements]. *)
Definition skills_split_required : Prop :=
  Forall (fun c => splits (required jobRequirements)
                     (matched (b_skills (scoreBreakdown c)))
                     (missing (b_skills (scoreBreakdown c))))
         candidates.

(** Every bootcamp breakdown of the dataset carries the score of the
    bootcamp rule for the providers of [jobRequirements]. *)
Definition bootcamp_by_rule : Prop :=
  Forall (fun c => (c_score (b_bootcamp (scoreBreakdown c))
                    == EngineSpec.bootcamp_score (EngineSpec.bootcamps_of c)
                         (preferredProviders jobRequirements))%Q)
         candidates.

(** Every location breakdown of the dataset carries the score of the
    location rule for the allowed places of [jobRequirements]. *)
Definition location_by_rule : Prop :=
  Forall (fun c => (c_score (b_location (scoreBreakdown c))
                    == EngineSpec.location_score (Some (location c))
                         (allowed jobRequirements))%Q)
         candidates.

End DatasetRules.

(** ** Sample inputs *)

Module Samples.

Import UploadCV.

Definition cv : DomFile.t :=
  {| DomFile.name := JS.of_string "cv.pdf"; DomFile.size := 12345%N;
     DomFile.type := "application/pdf" |}.

Definition letter : DomFile.t :=
  {| DomFile.name := JS.of_string "cv.pdf"; DomFile.size := 12345%N;
     DomFile.type :=
       "application/vnd.openxmlformats-officedocument.wordprocessingml.document" |}.

(** A back end that answers every request with score 76, candidate id
    [cid] and no candidate name. *)
Definition answer (cid : Z) : ScoreResult :=
  {| candidate_id := cid; candidate_name := None; total_score := inject_Z 76 |}.

(** The page before the health check has answered. *)
Definition pending : Env :=
  {| backendAvailable := None; job := None; fileId := "1730000000000k3j9x2m1q";
     scoreCV := fun _ _ _ => Rejected None |}.

(** The page after the health check failed. *)
Definition offline : Env :=
  {| backendAvailable := Some false; job := Some 1; fileId := "1730000000500a8b7c6d5e";
     scoreCV := fun _ _ _ => Rejected None |}.

(** The page with the back end reachable. *)
Definition online (cid : Z) : Env :=
  {| backendAvailable := Some true; job := None; fileId := "1730000000000k3j9x2m1q";
     scoreCV := fun _ _ _ => Resolved (answer cid) |}.

Definition uneven : JobTemplate.WeightState :=
  {| JobTemplate.education := 15; JobTemplate.experience := 25;
     JobTemplate.skills := 40; JobTemplate.bootcamp := 10;
     JobTemplate.portfolio := 15; JobTemplate.location := 5 |}.

End Samples.

(** ** pages/UploadCV: the rest of the page

    [formatFileSize] (data/mockData.ts, lines 868-872), [handleDrop] and
    [handleFileSelect] (lines 993-1008), [removeFile] (lines 1014-1016) and
    the three counters under the list (lines 1018-1020). *)

Module UploadPage.

Import JS UploadCV.

(** [setFiles(prev => prev.filter(f => f.id !== id))] *)
Definition removeFile (id0 : string) : Updater :=
  filter (fun f => negb (String.eqb (id f) id0)).

Definition isScored (s : FileStatus) : bool :=
  match s with Scored => true | _ => false end.

Definition scoredCount (files : list UploadedFile) : nat :=
  List.length (filter (fun f => isScored (status f)) files).

Definition pendingCount (files : list UploadedFile) : nat :=
  List.length (filter (fun f => negb (isScored (status f))
                                && negb (statusIsError (status f))) files).

Definition errorCount (files : list UploadedFile) : nat :=
  List.length (filter (fun f => statusIsError (status f)) files).

(** The integer [n] that [x.toFixed(1)] prints as [n / 10] for [x >= 0]:
    the one nearest to [10 * x], the larger of two that are as near. *)
Definition tenths (x : Q) : Z := Qfloor (10 * x + (1 # 2)).

(** [x.toFixed(1)] for [0 <= x < 10^21]: the digits of [n] with a point
    before the last one. *)
Definition toFixed1 (x : Q) : jsstring :=
  decimal (Z.to_N (tenths x / 10)) ++ [46] ++ decimal (Z.to_N (tenths x mod 10)).

(** [formatFileSize]; the quotients by 1024 and by 1024 * 1024 are exact
    in a double. *)
Definition formatFileSize (bytes : N) : jsstring :=
  if (bytes <? 1024)%N then toString bytes ++ of_string " B"
  else if (bytes <? 1024 * 1024)%N then
    toFixed1 (inject_Z (Z.of_N bytes) / 1024) ++ of_string " KB"
  else toFixed1 (inject_Z (Z.of_N bytes) / (1024 * 1024)) ++ of_string " MB".

(** The ways two sequences of steps can follow one another, each keeping
    its own order. *)
Inductive Interleave {A : Type} : list A -> list A -> list A -> Prop :=
| il_nil : Interleave [] [] []
| il_left (x : A) (l r m : list A) : Interleave l r m -> Interleave (x :: l) r (x :: m)
| il_right (y : A) (l r m : list A) : Interleave l r m -> Interleave l (y :: r) (y :: m).

(** Two calls made by one [files.forEach(processFile)], as [handleDrop] and
    [handleFileSelect] make them: the first call runs up to its first
    [await], which is past its first [setFiles], before the second call
    starts; after that the steps of the two calls may come in any order. *)
Definition dropSchedule (first second m : list Updater) : Prop :=
  match first with
  | [] => m = second
  | u :: rest => exists m', m = u :: m' /\ Interleave rest second m'
  end.

(** The steps of two calls taken in turn, a step of the second call
    before each step of the first. *)
Fixpoint alternate {A : Type} (l r : list A) : list A :=
  match l, r with
  | x :: l', y :: r' => y :: x :: alternate l' r'
  | [], _ => r
  | _, [] => l
  end.

(** The schedule of two dropped files whose timers fire in turn: the push
    of the first call, the push of the second, and then a step of the first
    and a step of the second, again and again. *)
Definition inTurn (first second : list Updater) : list Updater :=
  match first with
  | [] => second
  | u :: rest => u :: alternate rest second
  end.

(** An update of an entry that leaves its id alone, as every
    [{ ...f, ... }] of [processFile] does. *)
Definition keepsId (g : UploadedFile -> UploadedFile) : Prop :=
  forall f, id (g f) = id f.

(** A step of one upload: its push or an update of its own entry. *)
Inductive StepOf (i : string) (file : DomFile.t) : Updater -> Prop :=
| step_push : StepOf i file (fun prev => prev ++ [newFile i file])
| step_update (g : UploadedFile -> UploadedFile) : keepsId g -> StepOf i file (onId i g).

End UploadPage.

(** ** services/api.ts: the records of candidates and jobs, and the query
    of [getCandidates] (lines 7-56 and 116-133) *)

Module ApiData.

(** [interface ScoreBreakdown] *)
Record ScoreBreakdown : Set := {
  sb_score : Q;
  sb_weight : Q;
  sb_weighted_score : Q;
  sb_details : string;
  sb_matched : list string;
  sb_missing : list string
}.

(** [interface ParsedData] *)
Record ParsedData : Set := {
  pd_filename : JS.jsstring;
  pd_name : option JS.jsstring;
  pd_email : option string;
  pd_phone : option string;
  pd_location : option string;
  education_level : option string;
  education_major : option string;
  experience_years : option Q;
  experience_titles : list string;
  skills : list string;
  bootcamps : list string;
  portfolio_urls : list string;
  github_url : option string;
  linkedin_url : option string
}.

(** [interface Candidate]; [score_breakdown] is a record read by key. *)
Record Candidate : Set := {
  id : Z;
  job_id : Z;
  filename : JS.jsstring;
  name : option JS.jsstring;
  email : option string;
  phone : option string;
  location : option string;
  total_score : Q;
  status : string;
  score_breakdown : list (string * ScoreBreakdown);
  parsed_data : ParsedData;
  created_at : string;
  updated_at : string
}.

(** [interface Job] *)
Record Job : Set := {
  job_ident : Z;
  job_title : string;
  job_department : string;
  job_requirements : Api.JobRequirements;
  job_created_at : string;
  is_active : bool
}.

(** The argument of [getCandidates]; an absent key is [None].  The score
    bounds the pages pass are whole numbers. *)
Record Filters : Set := {
  f_job_id : option Z;
  f_status : option string;
  f_min_score : option Z;
  f_max_score : option Z;
  f_search : option string
}.

(** The value of a query parameter before it is written into the URL:
    [n.toString()] of a number, or a string. *)
Inductive ParamValue : Set :=
| PNum (n : Z)
| PStr (s : string).

Definition numParam (key : string) (v : option Z) : list (string * ParamValue) :=
  match v with
  | Some n => if n =? 0 then [] else [(key, PNum n)]
  | None => []
  end.

Definition strParam (key : string) (v : option string) : list (string * ParamValue) :=
  match v with
  | Some s => if Str.nonEmpty s then [(key, PStr s)] else []
  | None => []
  end.

(** The [URLSearchParams] that [getCandidates] builds: each
    [if (filters?.k) params.append('k', ...)] in turn. *)
Definition getCandidatesParams (filters : option Filters) : list (string * ParamValue) :=
  match filters with
  | None => []
  | Some f =>
      numParam "job_id" (f_job_id f)
      ++ strParam "status" (f_status f)
      ++ numParam "min_score" (f_min_score f)
      ++ numParam "max_score" (f_max_score f)
      ++ strParam "search" (f_search f)
  end.

Definition truthyValue (v : ParamValue) : bool :=
  match v with
  | PNum n => negb (n =? 0)
  | PStr s => Str.nonEmpty s
  end.

End ApiData.

(** ** pages/CandidateDetail: the avatar and the status buttons

    The candidate page is the third document of data/mockData.ts (lines
    533-840): [handleStatusUpdate] at lines 601-613, the avatar at line 655
    and the three buttons at lines 764-790. *)

Module CandidatePage.

Import JS.

(** [s.split(sep)] for a separator of one code unit. *)
Fixpoint split (sep : Z) (s : jsstring) : list jsstring :=
  match s with
  | [] => [[]]
  | c :: s' =>
      if c =? sep then [] :: split sep s'
      else match split sep s' with
           | h :: t => (c :: h) :: t
           | [] => [[c]]
           end
  end.

(** [n[0]], joined: nothing for an empty piece. *)
Definition firstUnit (n : jsstring) : jsstring :=
  match n with
  | c :: _ => [c]
  | [] => []
  end.

(** [(candidate.name || 'U').split(' ').map(n => n[0]).join('').substring(0, 2)] *)
Definition avatar (name : option jsstring) : jsstring :=
  let shown := if UploadCV.truthy_str name
               then match name with Some n => n | None => [85] end
               else [85] in
  firstn 2 (flat_map firstUnit (split 32 shown)).

(** What the page holds: the candidate once loaded, and the flag that a
    status update is under way. *)
Record PageState : Set := {
  candidate : option ApiData.Candidate;
  updating : bool
}.

Definition setStatus (s : string) (c : ApiData.Candidate) : ApiData.Candidate :=
  {| ApiData.id := ApiData.id c; ApiData.job_id := ApiData.job_id c;
     ApiData.filename := ApiData.filename c; ApiData.name := ApiData.name c;
     ApiData.email := ApiData.email c; ApiData.phone := ApiData.phone c;
     ApiData.location := ApiData.location c;
     ApiData.total_score := ApiData.total_score c;
     ApiData.status := s;
     ApiData.score_breakdown := ApiData.score_breakdown c;
     ApiData.parsed_data := ApiData.parsed_data c;
     ApiData.created_at := ApiData.created_at c;
     ApiData.updated_at := ApiData.updated_at c |}.

(** [handleStatusUpdate(status)] run to its end; [ok] tells whether
    [api.updateCandidateStatus] resolved.  The result is the state and
    whether the failure alert was raised. *)
Definition handleStatusUpdate (status : string) (ok : bool) (st : PageState)
    : PageState * bool :=
  match candidate st with
  | None => (st, false)
  | Some c =>
      if ok then ({| candidate := Some (setStatus status c); updating := false |}, false)
      else ({| candidate := Some c; updating := false |}, true)
  end.

Inductive Button : Set := ShortlistButton | InterviewButton | RejectButton.

(** The status a button asks for. *)
Definition target (b : Button) : string :=
  match b with
  | ShortlistButton => "shortlisted"
  | InterviewButton => "interview"
  | RejectButton => "rejected"
  end.

(** [disabled={updating || candidate.status === target}] *)
Definition disabled (b : Button) (st : PageState) : bool :=
  match candidate st with
  | Some c => updating st || String.eqb (ApiData.status c) (target b)
  | None => true
  end.

(** A click on a button: nothing when it is disabled. *)
Definition click (b : Button) (ok : bool) (st : PageState) : PageState :=
  if disabled b st then st else fst (handleStatusUpdate (target b) ok st).

(** Clicks one after the other, each with the answer of the back end. *)
Definition clicks (cs : list (Button * bool)) (st : PageState) : PageState :=
  fold_left (fun s c => click (fst c) (snd c) s) cs st.

Definition statusOf (st : PageState) : option string :=
  option_map ApiData.status (candidate st).

End CandidatePage.

(** ** pages/Dashboard: the skills cell of a table row (data/mockData.ts,
    lines 484-493) *)

Module DashboardPage.

(** The tags of the cell: the first four skills, and the number behind
    the [+] when there are more. *)
Definition skillsCell (skills : list string) : list string * option nat :=
  (firstn 4 skills,
   if (4 <? List.length skills)%nat then Some (List.length skills - 4)%nat else None).

Definition cellCount (cell : list string * option nat) : nat :=
  (List.length (fst cell) + match snd cell with Some n => n | None => 0 end)%nat.

End DashboardPage.

(** ** pages/JobTemplate.tsx: skills, providers and loading a job

    [loadJobData] (lines 72-95), [addRequiredSkill] and [addPreferredSkill]
    (lines 101-113), [removeSkill] (lines 115-121), [toggleProvider] and
    [togglePlatform] (lines 123-133). *)

Module JobForm.

Local Open Scope string_scope.

(** A list of skills with the text box under it. *)
Record SkillBox : Set := { skills : list string; newSkill : string }.

Definition includes (l : list string) (x : string) : bool :=
  existsb (String.eqb x) l.

(** [addRequiredSkill] and [addPreferredSkill], each on its own list and
    text box. *)
Definition addSkill (box : SkillBox) : SkillBox :=
  if Str.nonEmpty (newSkill box) && negb (includes (skills box) (newSkill box))
  then {| skills := skills box ++ [newSkill box]; newSkill := "" |}
  else box.

Definition addRequiredSkill : SkillBox -> SkillBox := addSkill.

Definition addPreferredSkill : SkillBox -> SkillBox := addSkill.

(** [removeSkill(skill, type)] on the list that [type] names. *)
Definition removeSkill (skill : string) (l : list string) : list string :=
  filter (fun s => negb (String.eqb s skill)) l.

(** [prev.includes(x) ? prev.filter(p => p !== x) : [...prev, x]] *)
Definition toggle (x : string) (prev : list string) : list string :=
  if includes prev x then filter (fun p => negb (String.eqb p x)) prev
  else prev ++ [x].

Definition toggleProvider : string -> list string -> list string := toggle.

Definition togglePlatform : string -> list string -> list string := toggle.

(** [n || d] on numbers and [s || d] on strings *)
Definition numOr (n d : Z) : Z := if (n =? 0)%Z then d else n.

Definition strOr (s d : string) : string := if Str.nonEmpty s then s else d.

(** [l.join(', ')] *)
Fixpoint join (l : list string) : string :=
  match l with
  | [] => ""
  | [x] => x
  | x :: rest => x ++ ", " ++ join rest
  end.

(** [loadJobData(job)]: what the form holds afterwards. *)
Definition loadJobData (job : ApiData.Job) (st : JobTemplate.FormState)
    : JobTemplate.FormState :=
  let req := ApiData.job_requirements job in
  {| JobTemplate.id := JobTemplate.id st;
     JobTemplate.backendAvailable := JobTemplate.backendAvailable st;
     JobTemplate.title := ApiData.job_title job;
     JobTemplate.department := ApiData.job_department job;
     JobTemplate.weights :=
       {| JobTemplate.education := numOr (Api.edu_weight (Api.education req)) 15;
          JobTemplate.experience := numOr (Api.exp_weight (Api.experience req)) 25;
          JobTemplate.skills := numOr (Api.sk_weight (Api.skills req)) 40;
          JobTemplate.bootcamp := numOr (Api.bc_weight (Api.bootcamp req)) 10;
          JobTemplate.portfolio := numOr (Api.pf_weight (Api.portfolio req)) 15;
          JobTemplate.location := numOr (Api.loc_weight (Api.location req)) 5 |};
     JobTemplate.educationLevel := strOr (Api.edu_min_level (Api.education req)) "S1";
     JobTemplate.educationMajors :=
       strOr (join (Api.edu_preferred_major (Api.education req))) "";
     JobTemplate.experienceYears := numOr (Api.exp_min_years (Api.experience req)) 3;
     JobTemplate.requiredSkills := Api.sk_required (Api.skills req);
     JobTemplate.preferredSkills := Api.sk_preferred (Api.skills req);
     JobTemplate.bootcampProviders := Api.bc_preferred_providers (Api.bootcamp req);
     JobTemplate.portfolioPlatforms := Api.pf_preferred_platforms (Api.portfolio req);
     JobTemplate.minProjects := numOr (Api.pf_min_projects (Api.portfolio req)) 2;
     JobTemplate.allowedLocations := strOr (join (Api.loc_allowed (Api.location req))) "" |}.

(** The job that a saved form comes back as, when the back end stores
    what [handleSave] sent. *)
Definition savedJob (ident : Z) (created : string) (active : bool)
    (st : JobTemplate.FormState) : ApiData.Job :=
  {| ApiData.job_ident := ident;
     ApiData.job_title := JobTemplate.title st;
     ApiData.job_department := JobTemplate.department st;
     ApiData.job_requirements := JobTemplate.buildRequirements st;
     ApiData.job_created_at := created;
     ApiData.is_active := active |}.

(** A text that [splitList] hands back as it is: not empty, no comma, no
    white space at either end. *)
Definition tidy (s : string) : Prop :=
  Str.nonEmpty s = true
  /\ Str.split ","%char s = [s]
  /\ Str.trim s = s.

(** A tidy text of ASCII characters only; among these the white space
    that [trim] strips is tab to carriage return and the space. *)
Definition plain (s : string) : Prop :=
  tidy s /\ Forall (fun c => (nat_of_ascii c < 128)%nat) (list_ascii_of_string s).

End JobForm.

(** ** pages/JobTemplate.tsx: the weights as doubles

    The sliders and the defaults give whole numbers, which
    [JobTemplate.WeightState] holds; [loadJobData] takes the weights of a
    loaded job as they come, and [totalWeight] (line 192) adds doubles from
    left to right.  This module has the weights as doubles. *)

Module JobTemplateDoubles.

Definition number : Set := PrimFloat.float.

(** The double of a whole number of magnitude below 2^62. *)
Definition ofZ (z : Z) : number :=
  if z <? 0 then PrimFloat.opp (PrimFloat.of_uint63 (Uint63.of_Z (- z)))
  else PrimFloat.of_uint63 (Uint63.of_Z z).

(** The double that a decimal with one digit behind the point is read as:
    the quotient of [t] by 10, rounded once. *)
Definition ofTenths (t : Z) : number := PrimFloat.div (ofZ t) (ofZ 10).

Record WeightState : Set := {
  education : number;
  experience : number;
  skills : number;
  bootcamp : number;
  portfolio : number;
  location : number
}.

Definition Object_values (w : WeightState) : list number :=
  [education w; experience w; skills w; bootcamp w; portfolio w; location w].

(** [Object.values(weights).reduce((a, b) => a + b, 0)] *)
Definition totalWeight (w : WeightState) : number :=
  fold_left (fun a b => PrimFloat.add a b) (Object_values w) (ofZ 0).

Record WeightCard : Set := {
  shown_total : number;
  total_color : ScoreColor;
  warning : option number
}.

(** The card; [===] and [!==] on numbers are the comparison of doubles. *)
Definition weightCard (w : WeightState) : WeightCard :=
  let totalWeight := totalWeight w in
  {| shown_total := totalWeight;
     total_color := if PrimFloat.eqb totalWeight (ofZ 100)
                    then color_success else color_danger;
     warning := if negb (PrimFloat.eqb totalWeight (ofZ 100))
                then Some totalWeight else None |}.

(** The exact value of a finite double. *)
Definition exact (x : number) : option Q :=
  match FloatOps.Prim2SF x with
  | SpecFloat.S754_zero _ => Some 0%Q
  | SpecFloat.S754_finite s m e =>
      let mag := if 0 <=? e then inject_Z (Zpos m * 2 ^ e)
                 else Qmake (Zpos m) (Pos.pow 2 (Z.to_pos (- e))) in
      Some (Qred (if s then Qopp mag else mag))
  | _ => None
  end.

(** The sum of the six weights, exactly. *)
Definition exactSum (w : WeightState) : option Q :=
  fold_left (fun acc x => match acc, exact x with
                          | Some a, Some b => Some (Qred (a + b))
                          | _, _ => None
                          end)
            (Object_values w) (Some 0%Q).

(** "The total shown is the sum of the six weights, and the warning is
    drawn exactly when that sum is not 100." *)
Definition total_is_sum : Prop :=
  forall (w : WeightState) (s : Q),
    exactSum w = Some s ->
    (exists t, exact (shown_total (weightCard w)) = Some t /\ (t == s)%Q)
    /\ (warning (weightCard w) = None <-> (s == 100)%Q).

(** Whole weights as the sliders give them: [parseInt] of a range input
    from 0 to 50 or, for the skills, from 0 to 100. *)
Definition slider (w : JobTemplate.WeightState) : Prop :=
  Forall (fun x => 0 <= x <= 100) (JobTemplate.Object_values w).

(** The whole numbers from 0 to [n]. *)
Definition upto (n : nat) : list Z := map Z.of_nat (seq 0 (S n)).

(** The sum of the doubles of a whole number up to 500 and of one up to
    100 is the double of their sum, checked one pair after the other. *)
Definition sumsExact : bool :=
  forallb (fun a =>
             forallb (fun b => PrimFloat.Leibniz.eqb
                                 (PrimFloat.add (ofZ a) (ofZ b)) (ofZ (a + b)))
                     (upto 100))
          (upto 500).

(** The double of a whole number up to 600 is equal to the double of 100
    just when the number is 100. *)
Definition comparesExact : bool :=
  forallb (fun t => Bool.eqb (PrimFloat.eqb (ofZ t) (ofZ 100)) (t =? 100))
          (upto 600).

(** The doubles of whole weights. *)
Definition ofWhole (w : JobTemplate.WeightState) : WeightState :=
  {| education := ofZ (JobTemplate.education w);
     experience := ofZ (JobTemplate.experience w);
     skills := ofZ (JobTemplate.skills w);
     bootcamp := ofZ (JobTemplate.bootcamp w);
     portfolio := ofZ (JobTemplate.portfolio w);
     location := ofZ (JobTemplate.location w) |}.

(** Weights 24, 21.9, 13.8, 12.5, 15.4 and 12.4, as a loaded job may
    carry them. *)
Definition fractions : WeightState :=
  {| education := ofZ 24; experience := ofTenths 219; skills := ofTenths 138;
     bootcamp := ofTenths 125; portfolio := ofTenths 154; location := ofTenths 124 |}.

(** Weights 2^53, 1, 1, -2^53, 97 and 1. *)
Definition huge : JobTemplate.WeightState :=
  {| JobTemplate.education := 2 ^ 53; JobTemplate.experience := 1;
     JobTemplate.skills := 1; JobTemplate.bootcamp := - 2 ^ 53;
     JobTemplate.portfolio := 97; JobTemplate.location := 1 |}.

End JobTemplateDoubles.

(** ** More sample inputs *)

Module MoreSamples.

Import UploadCV.

(** The page with a back end that rejects every request with a thrown
    value that is no [Error]. *)
Definition failing : Env :=
  {| backendAvailable := Some true; job := Some 1; fileId := "1730000001000q1w2e3r4t";
     scoreCV := fun _ _ _ => Rejected None |}.

Definition picture : DomFile.t :=
  {| DomFile.name := JS.of_string "cv.png"; DomFile.size := 2048%N;
     DomFile.type := "image/png" |}.

(** The form as the page first shows it. *)
Definition form : JobTemplate.FormState :=
  {| JobTemplate.id := None;
     JobTemplate.backendAvailable := Some true;
     JobTemplate.title := "Backend Developer";
     JobTemplate.department := "Engineering";
     JobTemplate.weights := Samples.uneven;
     JobTemplate.educationLevel := "S1";
     JobTemplate.educationMajors := "Informatika, Teknik Komputer, Sistem Informasi";
     JobTemplate.experienceYears := 3;
     JobTemplate.requiredSkills := ["Python"; "SQL"; "REST API"]%string;
     JobTemplate.preferredSkills := ["Docker"; "AWS"; "PostgreSQL"]%string;
     JobTemplate.bootcampProviders := ["Hacktiv8"; "Binar Academy"; "Dicoding"]%string;
     JobTemplate.portfolioPlatforms := ["github"; "gitlab"; "personal_website"]%string;
     JobTemplate.minProjects := 2;
     JobTemplate.allowedLocations := "Jakarta, Bandung, Remote" |}.

End MoreSamples.

(** * Properties *)

(** ** The simulation score *)

Module FallbackFacts.

Import JS Fallback.

Lemma wrap32_range (x : Z) : - 2 ^ 31 <= wrap32 x < 2 ^ 31.
Proof.
  unfold wrap32.
  pose proof (Z.mod_pos_bound (x + 2 ^ 31) (2 ^ 32) eq_refl). lia.
Qed.

Lemma wrap32_congr (a b k : Z) : a = b + k * 2 ^ 32 -> wrap32 a = wrap32 b.
Proof.
  intros ->. unfold wrap32.
  replace (b + k * 2 ^ 32 + 2 ^ 31) with (b + 2 ^ 31 + k * 2 ^ 32) by ring.
  now rewrite Z_mod_plus_full.
Qed.

Lemma wrap32_decomp (x : Z) : exists k, x = wrap32 x + k * 2 ^ 32.
Proof.
  exists ((x + 2 ^ 31) / 2 ^ 32). unfold wrap32.
  pose proof (Z.div_mod (x + 2 ^ 31) (2 ^ 32) ltac:(discriminate)). lia.
Qed.

Lemma wrap32_small (x : Z) : - 2 ^ 31 <= x < 2 ^ 31 -> wrap32 x = x.
Proof.
  intros H. unfold wrap32. rewrite Z.mod_small; lia.
Qed.

Lemma wrap32_int32 (x : Z) : wrap32 x = EstimateSpec.int32 x.
Proof. reflexivity. Qed.

(** The two statements of the loop body are one step of the rolling hash. *)
Lemma hashStep_roll (h c : Z) : hashStep h (Some c) = EstimateSpec.roll h c.
Proof.
  unfold hashStep, band, shl, add, sub, ToInt32, EstimateSpec.roll.
  rewrite Z.land_diag. change EstimateSpec.int32 with wrap32.
  change (5 mod 32) with 5. rewrite Z.shiftl_mul_pow2 by lia.
  change (2 ^ 5) with 32.
  destruct (wrap32_decomp h) as [k Hk].
  destruct (wrap32_decomp (wrap32 h * 32)) as [j Hj].
  apply wrap32_congr with (k := - (32 * k) - j).
  set (w := wrap32 h) in *. set (v := wrap32 (w * 32)) in *. lia.
Qed.

(** A character that the loop reads is never NaN: index [i] stays below
    the length. *)
Lemma hashLoop_fold (rest done : jsstring) (h : Z) :
  hashLoop (done ++ rest) (List.length rest) (List.length done) h
  = fold_left (fun a c => hashStep a (Some c)) rest h.
Proof.
  revert done h. induction rest as [| c rest IH]; intros done h; simpl.
  - reflexivity.
  - unfold charCodeAt. rewrite nth_error_app2 by lia.
    rewrite Nat.sub_diag. simpl.
    specialize (IH (done ++ [c]) (hashStep h (Some c))).
    rewrite <- app_assoc, length_app in IH. simpl in IH.
    rewrite Nat.add_1_r in IH. exact IH.
Qed.

Lemma fold_roll (s : jsstring) (h : Z) :
  fold_left (fun a c => hashStep a (Some c)) s h = fold_left EstimateSpec.roll s h.
Proof.
  revert h. induction s as [| c s IH]; intros h; simpl.
  - reflexivity.
  - now rewrite hashStep_roll, IH.
Qed.

Lemma hashOf_rolling_hash (str : jsstring) : hashOf str = EstimateSpec.rolling_hash str.
Proof.
  unfold hashOf, EstimateSpec.rolling_hash.
  rewrite <- fold_roll. exact (hashLoop_fold str [] 0).
Qed.

Lemma rolling_hash_range (s : jsstring) (h : Z) :
  - 2 ^ 31 <= h < 2 ^ 31 -> - 2 ^ 31 <= fold_left EstimateSpec.roll s h < 2 ^ 31.
Proof.
  revert h. induction s as [| c s IH]; intros h Hh; simpl.
  - exact Hh.
  - apply IH. unfold EstimateSpec.roll. change EstimateSpec.int32 with wrap32. apply wrap32_range.
Qed.

(** The sum formed before [hash & hash] is an integer that a double holds
    exactly, so the integer model of [-] and [+] loses nothing. *)
Lemma hashStep_exact (h c : Z) :
  - 2 ^ 31 <= h < 2 ^ 31 -> code_unit c ->
  - 2 ^ 53 < shl (Some h) 5 - h + c < 2 ^ 53.
Proof.
  intros Hh Hc. unfold code_unit in Hc. unfold shl.
  pose proof (wrap32_range (Z.shiftl (ToInt32 (Some h)) (5 mod 32))). lia.
Qed.

Lemma score_range (h : Z) : 40 <= rem (abs h) 61 + 40 <= 100.
Proof.
  unfold rem, abs. rewrite Z.rem_mod_nonneg by lia.
  pose proof (Z.mod_pos_bound (Z.abs h) 61 eq_refl). lia.
Qed.

(** Below 2^53 every integer is a double. *)
Lemma roundDouble_small (v : N) : (v < 2 ^ 53)%N -> roundDouble v = v.
Proof.
  intros H. unfold roundDouble. apply N.ltb_lt in H. now rewrite H.
Qed.

(** Rounding does not bring an integer from 2^53 on below 2^53. *)
Lemma roundDouble_big (v : N) : (2 ^ 53 <= v)%N -> (2 ^ 53 <= roundDouble v)%N.
Proof.
  intros H. unfold roundDouble.
  destruct (N.ltb_spec v (2 ^ 53)) as [L | _]; [lia |]. cbv zeta.
  assert (L53 : (53 <= N.log2 v)%N).
  { rewrite <- (N.log2_pow2 53) by lia. now apply N.log2_le_mono. }
  set (e := (N.log2 v - 52)%N).
  assert (He : (N.log2 v = 52 + e)%N) by (subst e; lia).
  assert (Hv : (2 ^ 52 * 2 ^ e <= v)%N).
  { rewrite <- N.pow_add_r, <- He. apply N.log2_spec. lia. }
  assert (Hpos : (2 ^ e <> 0)%N) by (apply N.pow_nonzero; lia).
  assert (Hq : (2 ^ 52 <= v / 2 ^ e)%N).
  { apply N.div_le_lower_bound; [exact Hpos |].
    rewrite N.mul_comm. exact Hv. }
  assert (H2 : (2 ^ 1 <= 2 ^ e)%N) by (apply N.pow_le_mono_r; subst e; lia).
  change (2 ^ 1)%N with 2%N in H2.
  change (2 ^ 53)%N with (2 ^ 52 * 2)%N.
  apply N.mul_le_mono; [| exact H2].
  destruct ((2 ^ (e - 1) <? v mod 2 ^ e)%N
            || ((v mod 2 ^ e =? 2 ^ (e - 1))%N && N.odd (v / 2 ^ e))); lia.
Qed.

(** Below 2^53 only the number itself reads back as itself. *)
Lemma nearby_small (x scale v : N) :
  (x < 2 ^ 53)%N -> (0 < scale)%N -> nearby x scale = Some v -> v = x.
Proof.
  intros Hx Hs. unfold nearby.
  pose proof (N.div_mod x scale ltac:(lia)) as Hd.
  pose proof (N.mod_lt x scale ltac:(lia)) as Hm.
  rewrite (N.mul_comm (x / scale) scale).
  set (p := (scale * (x / scale))%N) in *. set (m := (x mod scale)%N) in *.
  clearbody p m.
  assert (Hhi : (roundDouble (p + scale) =? x)%N = false).
  { apply N.eqb_neq. destruct (N.lt_ge_cases (p + scale) (2 ^ 53)) as [L | G].
    - rewrite roundDouble_small by exact L. lia.
    - pose proof (roundDouble_big _ G). lia. }
  assert (Hl : (p < 2 ^ 53)%N) by lia.
  rewrite Hhi, (roundDouble_small p Hl).
  destruct (N.eqb_spec p x) as [E | E]; intros H; [| discriminate].
  injection H as <-. exact E.
Qed.

Lemma search_small (x : N) (l : list N) :
  (x < 2 ^ 53)%N -> Forall (fun scale => (0 < scale)%N) l -> search x l = x.
Proof.
  intros Hx H. induction H as [| scale l Hs _ IH]; simpl; [reflexivity |].
  destruct (nearby x scale) as [v |] eqn:E; [| exact IH].
  exact (nearby_small x scale v Hx Hs E).
Qed.

Lemma scales_positive (x : N) : Forall (fun scale => (0 < scale)%N) (scales x).
Proof.
  unfold scales. apply Forall_forall. intros scale H. apply in_map_iff in H.
  destruct H as [j [<- _]]. apply N.neq_0_lt_0, N.pow_nonzero. lia.
Qed.

(** Below 2^53 a number is printed digit for digit. *)
Lemma toString_small (n : N) : (n < 2 ^ 53)%N -> toString n = decimal n.
Proof.
  intros H. unfold toString, shortest.
  assert (O : (overflow <=? n)%N = false).
  { apply N.leb_gt. apply N.lt_trans with (m := (2 ^ 53)%N); [exact H | reflexivity]. }
  rewrite O.
  rewrite roundDouble_small by exact H.
  rewrite search_small by (exact H || apply scales_positive).
  assert (L : (n <? 10 ^ 21)%N = true).
  { apply N.ltb_lt. apply N.lt_trans with (m := (2 ^ 53)%N); [exact H | reflexivity]. }
  now rewrite L.
Qed.

End FallbackFacts.

Lemma fallbackScore_range (name : JS.jsstring) (size : N) :
  40 <= Fallback.fallbackScore name size <= 100.
Proof. apply FallbackFacts.score_range. Qed.

(** 2^57 is printed with the seventeen digits that tell its double from
    the next, and a zero; 10^21 in the exponential form. *)
Example toString_2_57 :
  JS.toString (2 ^ 57) = JS.of_string "144115188075855870"
  /\ JS.decimal (2 ^ 57) = JS.of_string "144115188075855872"
  /\ JS.toString (10 ^ 21) = JS.of_string "1e+21".
Proof. vm_compute. repeat split. Qed.

(** C1, as stated, fails: for the file "cv.pdf" of 2^57 bytes the size is
    printed as 144115188075855870, and the page scores 82 where the
    estimate over the decimal string of the size is 84. *)
Lemma fallbackScore_is_estimate_fails :
  ~ (forall (name : JS.jsstring) (size : N),
       Fallback.fallbackScore name size = EstimateSpec.estimate name size).
Proof.
  intros H. specialize (H (JS.of_string "cv.pdf") (2 ^ 57)%N).
  vm_compute in H. discriminate H.
Qed.

(** C1, amended. For every file name and every file size below 2^53, the
    score that [processFile] computes in simulation mode is the
    specification's estimate: the signed 32-bit rolling hash with step
    [31 * h + c] over the name followed by the decimal digits of the size,
    then [abs h mod 61 + 40]; and for every size the score lies between 40
    and 100. *)
Theorem fallbackScore_is_estimate (name : JS.jsstring) (size : N) :
  ((size < 2 ^ 53)%N ->
   Fallback.fallbackScore name size = EstimateSpec.estimate name size)
  /\ 40 <= Fallback.fallbackScore name size <= 100.
Proof.
  split.
  - intros Hsize.
    unfold Fallback.fallbackScore, EstimateSpec.estimate, JS.rem, JS.abs.
    rewrite FallbackFacts.hashOf_rolling_hash, FallbackFacts.toString_small by exact Hsize.
    rewrite Z.rem_mod_nonneg by lia. reflexivity.
  - apply fallbackScore_range.
Qed.

Lemma fallbackScore_is_estimate_witness :
  Fallback.fallbackScore (JS.of_string "cv.pdf") 12345
  = EstimateSpec.estimate (JS.of_string "cv.pdf") 12345.
Proof.
  apply (proj1 (fallbackScore_is_estimate (JS.of_string "cv.pdf") 12345)).
  reflexivity.
Defined.

(** ** The upload list *)

Module UploadFacts.

Import JS UploadCV.

Lemma eqb_eq (s t : jsstring) : JS.eqb s t = true <-> s = t.
Proof.
  revert t. induction s as [| c s IH]; intros [| d t]; simpl; split; intros H;
    try reflexivity; try discriminate.
  - apply andb_true_iff in H. destruct H as [Hc Hs].
    apply Z.eqb_eq in Hc. apply IH in Hs. now subst.
  - injection H as -> ->. rewrite Z.eqb_refl. simpl. now apply IH.
Qed.

Lemma isDuplicate_true (files : list UploadedFile) (file : DomFile.t) :
  isDuplicate files file = true
  <-> exists f, In f files /\ name f = DomFile.name file /\ size f = DomFile.size file.
Proof.
  unfold isDuplicate. rewrite existsb_exists. split.
  - intros [f [Hin H]]. apply andb_true_iff in H. destruct H as [Hn Hs].
    exists f. repeat split; [assumption | now apply eqb_eq | now apply N.eqb_eq].
  - intros [f [Hin [Hn Hs]]]. exists f. split; [assumption |].
    apply andb_true_iff. split; [now apply eqb_eq | now apply N.eqb_eq].
Qed.

Lemma run_app (us vs : list Updater) (prev : list UploadedFile) :
  run (us ++ vs) prev = run vs (run us prev).
Proof. unfold run. apply fold_left_app. Qed.

Lemma onId_app (i : string) (g : UploadedFile -> UploadedFile) (l m : list UploadedFile) :
  onId i g (l ++ m) = onId i g l ++ onId i g m.
Proof. unfold onId. apply map_app. Qed.

Lemma onId_onId (i : string) (g h : UploadedFile -> UploadedFile) (l : list UploadedFile) :
  (forall f, id (h f) = id f) ->
  onId i g (onId i h l) = onId i (fun f => g (h f)) l.
Proof.
  intros Hid. unfold onId. rewrite map_map. apply map_ext. intros f.
  destruct (String.eqb (id f) i) eqn:E.
  - now rewrite Hid, E.
  - now rewrite E.
Qed.

Lemma onId_ext (i : string) (g h : UploadedFile -> UploadedFile) (l : list UploadedFile) :
  (forall f, g f = h f) -> onId i g l = onId i h l.
Proof.
  intros H. unfold onId. apply map_ext. intros f. now rewrite H.
Qed.

(** An id that no entry carries leaves the list as it is. *)
Lemma onId_fresh (i : string) (g : UploadedFile -> UploadedFile) (l : list UploadedFile) :
  (forall f, In f l -> id f <> i) -> onId i g l = l.
Proof.
  intros H. unfold onId. rewrite <- (map_id l) at 2. apply map_ext_in.
  intros f Hin. destruct (String.eqb_spec (id f) i) as [E | E].
  - now apply H in Hin.
  - reflexivity.
Qed.

Lemma run_uploadSteps (i : string) (file : DomFile.t) (prev : list UploadedFile) :
  run (uploadSteps i file) prev = onId i set_parsing (prev ++ [newFile i file]).
Proof.
  unfold uploadSteps, run, progressSteps. simpl.
  repeat (rewrite onId_onId by (intros f; reflexivity)).
  apply onId_ext. intros f. reflexivity.
Qed.

Lemma run_scored (i : string) (file : DomFile.t) (g : UploadedFile -> UploadedFile)
    (prev : list UploadedFile) :
  run (uploadSteps i file ++ [onId i g]) prev
  = onId i (fun f => g (set_parsing f)) prev ++ [g (set_parsing (newFile i file))].
Proof.
  rewrite run_app, run_uploadSteps. unfold run. simpl.
  rewrite onId_onId by (intros f; reflexivity).
  rewrite onId_app. f_equal. unfold onId. simpl.
  now rewrite String.eqb_refl.
Qed.

(** A rejected file ([files] holds an entry of its name and size, or its
    type is not valid) sets nothing in motion. *)
Lemma processFile_duplicate (env : Env) (files : list UploadedFile) (file : DomFile.t) :
  isDuplicate files file = true ->
  requests (processFile env files file) = []
  /\ updaters (processFile env files file) = [].
Proof.
  intros H. unfold processFile.
  destruct (negb (includes validTypes (DomFile.type file))); [now split |].
  rewrite H. now split.
Qed.

(** The effects of a simulated upload. *)
Lemma processFile_simulation (env : Env) (files : list UploadedFile) (file : DomFile.t) :
  accepted files file -> simulation env ->
  processFile env files file
  = {| alerts := []; requests := [];
       updaters := uploadSteps (fileId env) file
         ++ [onId (fileId env)
               (set_scored (inject_Z (Fallback.fallbackScore (DomFile.name file)
                                        (DomFile.size file))))] |}.
Proof.
  intros [Hty Hdup] Hsim. unfold simulation in Hsim. unfold processFile.
  now rewrite Hty, Hdup, Hsim.
Qed.

Lemma run_simulation (env : Env) (files prev : list UploadedFile) (file : DomFile.t) :
  accepted files file -> simulation env ->
  run (updaters (processFile env files file)) prev
  = onId (fileId env) (simulatedTouch file) prev ++ [simulated (fileId env) file].
Proof.
  intros Hacc Hsim. rewrite (processFile_simulation env files file Hacc Hsim).
  cbn [updaters]. rewrite run_scored. reflexivity.
Qed.

Lemma processFile_resolved (env : Env) (files : list UploadedFile) (file : DomFile.t)
    (result : ScoreResult) :
  accepted files file ->
  backendAvailable env = Some true ->
  scoreCV env file (jobIdOr1 (job env)) true = Resolved result ->
  updaters (processFile env files file)
  = uploadSteps (fileId env) file
      ++ [onId (fileId env)
            (set_backend_scored (total_score result) (candidate_id result)
               (or_undefined (candidate_name result)))].
Proof.
  intros [Hty Hdup] Hb Hr. unfold processFile.
  now rewrite Hty, Hdup, Hb, Hr.
Qed.

(** The list after an upload that the back end scored. *)
Lemma run_resolved (env : Env) (files prev : list UploadedFile) (file : DomFile.t)
    (result : ScoreResult) :
  accepted files file ->
  backendAvailable env = Some true ->
  scoreCV env file (jobIdOr1 (job env)) true = Resolved result ->
  let g := set_backend_scored (total_score result) (candidate_id result)
             (or_undefined (candidate_name result)) in
  run (updaters (processFile env files file)) prev
  = onId (fileId env) (fun f => g (set_parsing f)) prev
      ++ [g (set_parsing (newFile (fileId env) file))].
Proof.
  intros Hacc Hb Hr g.
  rewrite (processFile_resolved env files file result Hacc Hb Hr).
  apply run_scored.
Qed.

End UploadFacts.

(** C10. If the list that [processFile] sees already holds an entry with
    the name and the size of the file, the call changes nothing: the list
    stays as it is, whatever list the updaters would run on, and no request
    is sent. *)
Theorem duplicate_upload_ignored (env : UploadCV.Env)
    (files : list UploadCV.UploadedFile) (file : DomFile.t) :
  (exists f, In f files /\ UploadCV.name f = DomFile.name file
             /\ UploadCV.size f = DomFile.size file) ->
  UploadCV.upload env files file = files
  /\ UploadCV.requests (UploadCV.processFile env files file) = []
  /\ forall prev,
       UploadCV.run (UploadCV.updaters (UploadCV.processFile env files file)) prev = prev.
Proof.
  intros H. apply UploadFacts.isDuplicate_true in H.
  destruct (UploadFacts.processFile_duplicate env files file H) as [Hr Hu].
  unfold UploadCV.upload. rewrite Hu, Hr. repeat split.
Qed.

Lemma duplicate_upload_ignored_witness :
  UploadCV.upload (Samples.online 7)
    [UploadCV.simulated "1729999999000zzzzzzzzz" Samples.letter] Samples.cv
  = [UploadCV.simulated "1729999999000zzzzzzzzz" Samples.letter].
Proof.
  apply (duplicate_upload_ignored (Samples.online 7)
           [UploadCV.simulated "1729999999000zzzzzzzzz" Samples.letter] Samples.cv).
  exists (UploadCV.simulated "1729999999000zzzzzzzzz" Samples.letter).
  split; [left; reflexivity | split; reflexivity].
Defined.

(** C2. The simulation score depends on the name and the size of the file
    and on nothing else: two accepted uploads of files with the same name
    and size, in whatever lists, under whatever ids, jobs and back ends, end
    with the same score, an integer from 40 to 100; neither raises an alert
    or sends a request, and each call yields its entry. *)
Theorem fallback_pure_total (e1 e2 : UploadCV.Env)
    (files1 files2 prev1 prev2 : list UploadCV.UploadedFile) (file1 file2 : DomFile.t) :
  DomFile.name file1 = DomFile.name file2 ->
  DomFile.size file1 = DomFile.size file2 ->
  UploadCV.accepted files1 file1 -> UploadCV.accepted files2 file2 ->
  UploadCV.simulation e1 -> UploadCV.simulation e2 ->
  exists (v : Z) (rest1 rest2 : list UploadCV.UploadedFile)
         (f1 f2 : UploadCV.UploadedFile),
    40 <= v <= 100
    /\ v = Fallback.fallbackScore (DomFile.name file1) (DomFile.size file1)
    /\ UploadCV.run (UploadCV.updaters (UploadCV.processFile e1 files1 file1)) prev1
       = rest1 ++ [f1]
    /\ UploadCV.run (UploadCV.updaters (UploadCV.processFile e2 files2 file2)) prev2
       = rest2 ++ [f2]
    /\ UploadCV.score f1 = Some (inject_Z v)
    /\ UploadCV.score f2 = Some (inject_Z v)
    /\ UploadCV.alerts (UploadCV.processFile e1 files1 file1) = []
    /\ UploadCV.alerts (UploadCV.processFile e2 files2 file2) = [].
Proof.
  intros Hn Hs A1 A2 S1 S2.
  exists (Fallback.fallbackScore (DomFile.name file1) (DomFile.size file1)).
  exists (UploadCV.onId (UploadCV.fileId e1) (UploadCV.simulatedTouch file1) prev1).
  exists (UploadCV.onId (UploadCV.fileId e2) (UploadCV.simulatedTouch file2) prev2).
  exists (UploadCV.simulated (UploadCV.fileId e1) file1).
  exists (UploadCV.simulated (UploadCV.fileId e2) file2).
  split; [apply fallbackScore_range |].
  split; [reflexivity |].
  split; [now apply UploadFacts.run_simulation |].
  split; [now apply UploadFacts.run_simulation |].
  split; [reflexivity |].
  split; [simpl; now rewrite Hn, Hs |].
  rewrite (UploadFacts.processFile_simulation e1 files1 file1 A1 S1).
  rewrite (UploadFacts.processFile_simulation e2 files2 file2 A2 S2).
  split; reflexivity.
Qed.

Lemma fallback_pure_total_witness :
  exists (v : Z) (rest1 rest2 : list UploadCV.UploadedFile)
         (f1 f2 : UploadCV.UploadedFile),
    40 <= v <= 100
    /\ v = Fallback.fallbackScore (DomFile.name Samples.cv) (DomFile.size Samples.cv)
    /\ UploadCV.run (UploadCV.updaters
                       (UploadCV.processFile Samples.pending [] Samples.cv)) []
       = rest1 ++ [f1]
    /\ UploadCV.run (UploadCV.updaters
                       (UploadCV.processFile Samples.offline [] Samples.letter)) []
       = rest2 ++ [f2]
    /\ UploadCV.score f1 = Some (inject_Z v)
    /\ UploadCV.score f2 = Some (inject_Z v)
    /\ UploadCV.alerts (UploadCV.processFile Samples.pending [] Samples.cv) = []
    /\ UploadCV.alerts (UploadCV.processFile Samples.offline [] Samples.letter) = [].
Proof.
  apply (fallback_pure_total Samples.pending Samples.offline [] [] [] []
           Samples.cv Samples.letter);
    try reflexivity; split; reflexivity.
Defined.

(** The simulation gives the sample file 76. *)
Example fallbackScore_cv :
  Fallback.fallbackScore (JS.of_string "cv.pdf") 12345 = 76.
Proof. vm_compute. reflexivity. Qed.

(** Whatever the back end answers, a row scored by it and the row of the
    simulation with the same score and no candidate name agree on the
    background, the label, the size, the progress, the status tag and the
    colour and value of the score; only the target of the link can differ. *)
Lemma simulated_row_like_computed (i : string) (file : DomFile.t) (cid : Z) :
  let sim := UploadCV.renderRow (UploadCV.simulated i file) in
  let real :=
    UploadCV.renderRow
      (UploadCV.set_backend_scored
         (inject_Z (Fallback.fallbackScore (DomFile.name file) (DomFile.size file)))
         cid None (UploadCV.set_parsing (UploadCV.newFile i file))) in
  UploadCV.row_error_background sim = UploadCV.row_error_background real
  /\ UploadCV.row_label sim = UploadCV.row_label real
  /\ UploadCV.row_size sim = UploadCV.row_size real
  /\ UploadCV.row_progress sim = UploadCV.row_progress real
  /\ UploadCV.row_tag sim = UploadCV.row_tag real
  /\ option_map UploadCV.link_color (UploadCV.row_score sim)
     = option_map UploadCV.link_color (UploadCV.row_score real)
  /\ option_map UploadCV.link_value (UploadCV.row_score sim)
     = option_map UploadCV.link_value (UploadCV.row_score real).
Proof. repeat split. Qed.

(** A file dropped before the health check has answered is scored by the
    simulation; once the check has answered "healthy" the page is drawn,
    banner and rows, exactly as if the back end had scored the file. *)
Lemma pending_upload_page_like_computed :
  UploadCV.renderPage (Some true) (UploadCV.upload Samples.pending [] Samples.cv)
  = UploadCV.renderPage (Some true) (UploadCV.upload (Samples.online 0) [] Samples.cv).
Proof. vm_compute. reflexivity. Qed.

(** C8, as stated, fails: the row of a simulated upload and the row of an
    upload that the back end scored 76 for candidate id 0 without a name are
    drawn the same. *)
Lemma estimate_rows_differ_fails : ~ UploadCV.estimate_rows_differ.
Proof.
  intros H.
  apply (H Samples.offline (Samples.online 0) [] Samples.cv (Samples.answer 0)).
  - split; reflexivity.
  - reflexivity.
  - reflexivity.
  - reflexivity.
  - vm_compute. reflexivity.
Qed.

(** C8, amended. When the simulation scores an accepted file, the entry it
    leaves has status "scored", progress 100 and the hash score, and no
    candidate id, candidate name or error; no request is sent; the row's
    status tag is the tag of every entry the back end scored; and the
    simulation banner is drawn exactly when the health flag is [false]. *)
Theorem simulated_entry_untagged (env : UploadCV.Env)
    (files prev : list UploadCV.UploadedFile) (file : DomFile.t) :
  UploadCV.accepted files file ->
  UploadCV.simulation env ->
  exists (rest : list UploadCV.UploadedFile) (e : UploadCV.UploadedFile),
    UploadCV.run (UploadCV.updaters (UploadCV.processFile env files file)) prev
    = rest ++ [e]
    /\ e = {| UploadCV.id := UploadCV.fileId env;
              UploadCV.name := DomFile.name file;
              UploadCV.size := DomFile.size file;
              UploadCV.status := UploadCV.Scored;
              UploadCV.progress := 100;
              UploadCV.score :=
                Some (inject_Z (Fallback.fallbackScore (DomFile.name file)
                                  (DomFile.size file)));
              UploadCV.candidateId := None;
              UploadCV.candidateName := None;
              UploadCV.error := None |}
    /\ UploadCV.requests (UploadCV.processFile env files file) = []
    /\ (forall s cid cname f,
          UploadCV.row_tag (UploadCV.renderRow e)
          = UploadCV.row_tag
              (UploadCV.renderRow (UploadCV.set_backend_scored s cid cname f)))
    /\ (UploadCV.banner (UploadCV.backendAvailable env) = Some UploadCV.BannerSimulation
        <-> UploadCV.backendAvailable env = Some false).
Proof.
  intros Hacc Hsim.
  exists (UploadCV.onId (UploadCV.fileId env) (UploadCV.simulatedTouch file) prev).
  exists (UploadCV.simulated (UploadCV.fileId env) file).
  split; [now apply UploadFacts.run_simulation |].
  split; [reflexivity |].
  split; [now rewrite (UploadFacts.processFile_simulation env files file Hacc Hsim) |].
  split; [reflexivity |].
  destruct (UploadCV.backendAvailable env) as [[|] |]; simpl; split;
    intros E; try discriminate; reflexivity.
Qed.

Lemma simulated_entry_untagged_witness :
  exists (rest : list UploadCV.UploadedFile) (e : UploadCV.UploadedFile),
    UploadCV.run (UploadCV.updaters (UploadCV.processFile Samples.pending [] Samples.cv)) []
    = rest ++ [e]
    /\ e = {| UploadCV.id := UploadCV.fileId Samples.pending;
              UploadCV.name := DomFile.name Samples.cv;
              UploadCV.size := DomFile.size Samples.cv;
              UploadCV.status := UploadCV.Scored;
              UploadCV.progress := 100;
              UploadCV.score :=
                Some (inject_Z (Fallback.fallbackScore (DomFile.name Samples.cv)
                                  (DomFile.size Samples.cv)));
              UploadCV.candidateId := None;
              UploadCV.candidateName := None;
              UploadCV.error := None |}
    /\ UploadCV.requests (UploadCV.processFile Samples.pending [] Samples.cv) = []
    /\ (forall s cid cname f,
          UploadCV.row_tag (UploadCV.renderRow e)
          = UploadCV.row_tag
              (UploadCV.renderRow (UploadCV.set_backend_scored s cid cname f)))
    /\ (UploadCV.banner (UploadCV.backendAvailable Samples.pending)
        = Some UploadCV.BannerSimulation
        <-> UploadCV.backendAvailable Samples.pending = Some false).
Proof.
  apply (simulated_entry_untagged Samples.pending [] [] Samples.cv).
  - split; reflexivity.
  - reflexivity.
Defined.

(** ** The score class *)

Module ScoreClassFacts.

Lemma le_bool_false (a b : Q) : Qle_bool a b = false <-> (b < a)%Q.
Proof.
  split.
  - intros H. apply Qnot_le_lt. intros L. apply Qle_bool_iff in L. congruence.
  - intros H. destruct (Qle_bool a b) eqn:E; [| reflexivity].
    apply Qle_bool_iff in E. exfalso. exact (Qlt_not_le _ _ H E).
Qed.

Lemma dashboard_detail (s : Q) :
  Dashboard.getScoreClass s = CandidateDetail.getScoreClass s.
Proof. reflexivity. Qed.

Lemma class_cases (s : Q) :
  ((80 <= s)%Q /\ Dashboard.getScoreClass s = high)
  \/ ((60 <= s)%Q /\ (s < 80)%Q /\ Dashboard.getScoreClass s = medium)
  \/ ((s < 60)%Q /\ Dashboard.getScoreClass s = low).
Proof.
  unfold Dashboard.getScoreClass.
  destruct (Qle_bool 80 s) eqn:E80.
  - left. split; [now apply Qle_bool_iff | reflexivity].
  - apply le_bool_false in E80. destruct (Qle_bool 60 s) eqn:E60.
    + right; left. repeat split; [now apply Qle_bool_iff | assumption].
    + right; right. split; [now apply le_bool_false | reflexivity].
Qed.

End ScoreClassFacts.

(** C4. [getScoreClass], on the dashboard and on the candidate page alike,
    yields "high" exactly for scores of at least 80, "medium" exactly for
    scores from 60 up to but below 80, and "low" exactly for scores below
    60; every score falls in exactly one of the three bands. *)
Theorem getScoreClass_bands (s : Q) :
  (Dashboard.getScoreClass s = high <-> (80 <= s)%Q)
  /\ (Dashboard.getScoreClass s = medium <-> (60 <= s)%Q /\ (s < 80)%Q)
  /\ (Dashboard.getScoreClass s = low <-> (s < 60)%Q)
  /\ CandidateDetail.getScoreClass s = Dashboard.getScoreClass s
  /\ ((80 <= s)%Q \/ ((60 <= s)%Q /\ (s < 80)%Q) \/ (s < 60)%Q)
  /\ ~ ((80 <= s)%Q /\ (s < 80)%Q)
  /\ ~ ((80 <= s)%Q /\ (s < 60)%Q)
  /\ ~ ((60 <= s)%Q /\ (s < 60)%Q).
Proof.
  assert (N1 : ~ ((80 <= s)%Q /\ (s < 80)%Q))
    by (intros [A B]; exact (Qlt_not_le _ _ B A)).
  assert (N3 : ~ ((60 <= s)%Q /\ (s < 60)%Q))
    by (intros [A B]; exact (Qlt_not_le _ _ B A)).
  assert (N2 : ~ ((80 <= s)%Q /\ (s < 60)%Q)).
  { intros [A B]. apply (Qlt_not_le _ _ B). apply Qle_trans with (y := 80%Q); [| exact A].
    discriminate. }
  destruct (ScoreClassFacts.class_cases s) as [[A E] | [[A [B E]] | [A E]]];
    rewrite E; repeat split; intros; try discriminate; try tauto.
Qed.

(** ** The weight editor *)

Module JobTemplateFacts.

Import JobTemplate.

Lemma totalWeight_sum (w : WeightState) :
  totalWeight w
  = education w + experience w + skills w + bootcamp w + portfolio w + location w.
Proof. unfold totalWeight, Object_values. simpl. reflexivity. Qed.

(** A slider moves one weight and the total by the same amount. *)
Lemma handleWeightChange_total (key : WeightKey) (value : Z) (w : WeightState) :
  totalWeight (handleWeightChange key value w)
  = totalWeight w + value
    - match key with
      | k_education => education w
      | k_experience => experience w
      | k_skills => skills w
      | k_bootcamp => bootcamp w
      | k_portfolio => portfolio w
      | k_location => location w
      end.
Proof. rewrite !totalWeight_sum. destruct key; simpl; lia. Qed.

Lemma buildRequirements_weights (st : FormState) :
  weightsOf (buildRequirements st) = weights st.
Proof. destruct st as [? ? ? ? [? ? ? ? ? ?] ? ? ? ? ? ? ? ? ?]. reflexivity. Qed.

Lemma in_upto (n : nat) (z : Z) :
  0 <= z <= Z.of_nat n -> In z (JobTemplateDoubles.upto n).
Proof.
  intros H. unfold JobTemplateDoubles.upto.
  rewrite <- (Z2Nat.id z) by lia. apply in_map, in_seq. lia.
Qed.

(** Doubles add whole numbers of this size exactly. *)
Lemma add_exact (a b : Z) :
  0 <= a <= 500 -> 0 <= b <= 100 ->
  PrimFloat.add (JobTemplateDoubles.ofZ a) (JobTemplateDoubles.ofZ b)
  = JobTemplateDoubles.ofZ (a + b).
Proof.
  intros Ha Hb.
  assert (C : JobTemplateDoubles.sumsExact = true) by (vm_compute; reflexivity).
  unfold JobTemplateDoubles.sumsExact in C. rewrite forallb_forall in C.
  specialize (C a (in_upto 500 a Ha)). rewrite forallb_forall in C.
  apply FloatAxioms.Leibniz.eqb_spec, C, (in_upto 100 b Hb).
Qed.

Lemma eqb_exact (t : Z) :
  0 <= t <= 600 ->
  PrimFloat.eqb (JobTemplateDoubles.ofZ t) (JobTemplateDoubles.ofZ 100) = (t =? 100).
Proof.
  intros Ht.
  assert (C : JobTemplateDoubles.comparesExact = true) by (vm_compute; reflexivity).
  unfold JobTemplateDoubles.comparesExact in C. rewrite forallb_forall in C.
  apply Bool.eqb_prop, C, (in_upto 600 t Ht).
Qed.

Lemma slider_bounds (w : WeightState) :
  JobTemplateDoubles.slider w ->
  0 <= education w <= 100 /\ 0 <= experience w <= 100 /\ 0 <= skills w <= 100
  /\ 0 <= bootcamp w <= 100 /\ 0 <= portfolio w <= 100 /\ 0 <= location w <= 100.
Proof.
  unfold JobTemplateDoubles.slider, Object_values. intros H.
  inversion_clear H as [| ? ? Ha H1]. inversion_clear H1 as [| ? ? Hb H2].
  inversion_clear H2 as [| ? ? Hc H3]. inversion_clear H3 as [| ? ? Hd H4].
  inversion_clear H4 as [| ? ? He H5]. inversion_clear H5 as [| ? ? Hf _].
  repeat split; lia.
Qed.

(** With weights as the sliders give them, the fold of doubles gives the
    double of the sum. *)
Lemma totalWeight_exact (w : WeightState) :
  JobTemplateDoubles.slider w ->
  JobTemplateDoubles.totalWeight (JobTemplateDoubles.ofWhole w)
  = JobTemplateDoubles.ofZ (totalWeight w)
  /\ 0 <= totalWeight w <= 600.
Proof.
  intros H. apply slider_bounds in H.
  destruct H as [Ha [Hb [Hc [Hd [He Hf]]]]].
  rewrite totalWeight_sum. split; [| lia].
  unfold JobTemplateDoubles.totalWeight, JobTemplateDoubles.Object_values,
    JobTemplateDoubles.ofWhole.
  cbn [fold_left JobTemplateDoubles.education JobTemplateDoubles.experience
       JobTemplateDoubles.skills JobTemplateDoubles.bootcamp
       JobTemplateDoubles.portfolio JobTemplateDoubles.location].
  rewrite !add_exact by lia. f_equal.
Qed.

Lemma handleWeightChange_slider (key : WeightKey) (value : Z) (w : WeightState) :
  JobTemplateDoubles.slider w -> 0 <= value <= 100 ->
  JobTemplateDoubles.slider (handleWeightChange key value w).
Proof.
  intros H Hv. apply slider_bounds in H.
  destruct H as [Ha [Hb [Hc [Hd [He Hf]]]]].
  unfold JobTemplateDoubles.slider.
  destruct w as [a b c d e f]. cbn in Ha, Hb, Hc, Hd, He, Hf.
  destruct key; cbn; repeat (apply Forall_cons; [assumption |]); apply Forall_nil.
Qed.

(** With weights as the sliders give them, the card of the doubles is the
    card of the whole numbers. *)
Lemma doubles_card_exact (w : WeightState) :
  JobTemplateDoubles.slider w ->
  let shown := JobTemplateDoubles.weightCard (JobTemplateDoubles.ofWhole w) in
  let card := weightCard w in
  JobTemplateDoubles.shown_total shown = JobTemplateDoubles.ofZ (shown_total card)
  /\ JobTemplateDoubles.total_color shown = total_color card
  /\ JobTemplateDoubles.warning shown
     = option_map JobTemplateDoubles.ofZ (warning card).
Proof.
  intros H. destruct (totalWeight_exact w H) as [E B].
  unfold JobTemplateDoubles.weightCard, weightCard.
  cbn [JobTemplateDoubles.shown_total JobTemplateDoubles.total_color
       JobTemplateDoubles.warning shown_total total_color warning].
  rewrite E, (eqb_exact _ B).
  destruct (totalWeight w =? 100); repeat split; reflexivity.
Qed.

(** The card of weights held as doubles: the warning goes by the
    comparison of the folded total with 100. *)
Lemma doubles_card (w : JobTemplateDoubles.WeightState) :
  let card := JobTemplateDoubles.weightCard w in
  JobTemplateDoubles.shown_total card = JobTemplateDoubles.totalWeight w
  /\ (JobTemplateDoubles.warning card = None
      <-> PrimFloat.eqb (JobTemplateDoubles.totalWeight w)
            (JobTemplateDoubles.ofZ 100) = true)
  /\ (JobTemplateDoubles.warning card = Some (JobTemplateDoubles.totalWeight w)
      <-> PrimFloat.eqb (JobTemplateDoubles.totalWeight w)
            (JobTemplateDoubles.ofZ 100) = false).
Proof.
  unfold JobTemplateDoubles.weightCard.
  cbn [JobTemplateDoubles.shown_total JobTemplateDoubles.warning].
  split; [reflexivity |].
  destruct (PrimFloat.eqb (JobTemplateDoubles.totalWeight w) (JobTemplateDoubles.ofZ 100));
    simpl; repeat split; intros; try reflexivity; discriminate.
Qed.

End JobTemplateFacts.

(** The six weights 24, 21.9, 13.8, 12.5, 15.4 and 12.4 add up to 100,
    but added as doubles from left to right they give
    100.00000000000001. *)
Example fractions_total :
  JobTemplateDoubles.exactSum JobTemplateDoubles.fractions = Some 100%Q
  /\ PrimFloat.eqb (JobTemplateDoubles.totalWeight JobTemplateDoubles.fractions)
       (JobTemplateDoubles.ofZ 100) = false
  /\ JobTemplateDoubles.exact
       (JobTemplateDoubles.totalWeight JobTemplateDoubles.fractions)
     = Some (Qred (100 + inject_Z 1 / inject_Z (2 ^ 46))%Q).
Proof. vm_compute. repeat split. Qed.

(** The whole weights 2^53, 1, 1, -2^53, 97 and 1 add up to 100, but
    added as doubles from left to right they give 98. *)
Example huge_total :
  JobTemplate.totalWeight JobTemplateDoubles.huge = 100
  /\ JobTemplateDoubles.totalWeight
       (JobTemplateDoubles.ofWhole JobTemplateDoubles.huge)
     = JobTemplateDoubles.ofZ 98.
Proof. vm_compute. split; reflexivity. Qed.

(** C9, as the specification has it, fails: with the weights 24, 21.9,
    13.8, 12.5, 15.4 and 12.4, whose sum is 100, the total shown is not the
    sum and the warning is drawn. *)
Lemma totalWeight_is_sum_fails : ~ JobTemplateDoubles.total_is_sum.
Proof.
  intros H.
  destruct (H JobTemplateDoubles.fractions 100%Q) as [_ Hw].
  - vm_compute. reflexivity.
  - assert (E : JobTemplateDoubles.warning
                  (JobTemplateDoubles.weightCard JobTemplateDoubles.fractions) = None)
      by (apply Hw; reflexivity).
    vm_compute in E. discriminate E.
Qed.

(** C9. For every state of the form whose weights are whole numbers from
    0 to 100, as the sliders give them, the card drawn from the doubles is
    the card of the whole numbers: the total that the weight card shows is
    the sum of the six weights; the warning is drawn, quoting that total,
    exactly when the total is not 100; and a total other than 100 is neither
    rejected nor rescaled: [handleSave] stops only when the back end is not
    available, and the job it sends carries the six weights as they stand.
    For weights held as doubles, whole or not, the warning goes by the
    total as the fold of doubles gives it. *)
Theorem totalWeight_flagged_not_enforced (st : JobTemplate.FormState) :
  JobTemplateDoubles.slider (JobTemplate.weights st) ->
  let w := JobTemplate.weights st in
  let card := JobTemplate.weightCard w in
  let shown := JobTemplateDoubles.weightCard (JobTemplateDoubles.ofWhole w) in
  (JobTemplateDoubles.shown_total shown
   = JobTemplateDoubles.ofZ (JobTemplate.shown_total card)
   /\ JobTemplateDoubles.total_color shown = JobTemplate.total_color card
   /\ JobTemplateDoubles.warning shown
      = option_map JobTemplateDoubles.ofZ (JobTemplate.warning card))
  /\ JobTemplate.shown_total card
     = JobTemplate.education w + JobTemplate.experience w + JobTemplate.skills w
       + JobTemplate.bootcamp w + JobTemplate.portfolio w + JobTemplate.location w
  /\ (JobTemplate.warning card = Some (JobTemplate.shown_total card)
      <-> JobTemplate.shown_total card <> 100)
  /\ (JobTemplate.warning card = None <-> JobTemplate.shown_total card = 100)
  /\ JobTemplate.weightsOf (JobTemplate.buildRequirements st) = w
  /\ match JobTemplate.handleSave st with
     | JobTemplate.AlertUnavailable =>
         UploadCV.truthy_flag (JobTemplate.backendAvailable st) = false
     | JobTemplate.CallUpdateJob _ job
     | JobTemplate.CallCreateJob job =>
         UploadCV.truthy_flag (JobTemplate.backendAvailable st) = true
         /\ JobTemplate.weightsOf (Api.requirements job) = w
     end
  /\ (forall d : JobTemplateDoubles.WeightState,
        let drawn := JobTemplateDoubles.weightCard d in
        JobTemplateDoubles.shown_total drawn = JobTemplateDoubles.totalWeight d
        /\ (JobTemplateDoubles.warning drawn = None
            <-> PrimFloat.eqb (JobTemplateDoubles.totalWeight d)
                  (JobTemplateDoubles.ofZ 100) = true)
        /\ (JobTemplateDoubles.warning drawn = Some (JobTemplateDoubles.totalWeight d)
            <-> PrimFloat.eqb (JobTemplateDoubles.totalWeight d)
                  (JobTemplateDoubles.ofZ 100) = false)).
Proof.
  intros Hw w card shown. subst card shown.
  split; [now apply JobTemplateFacts.doubles_card_exact |].
  unfold JobTemplate.weightCard.
  cbn [JobTemplate.shown_total JobTemplate.warning].
  split; [apply JobTemplateFacts.totalWeight_sum |].
  split.
  { destruct (Z.eqb_spec (JobTemplate.totalWeight w) 100) as [E | E]; simpl; split;
      intros H; try discriminate; try reflexivity; congruence. }
  split.
  { destruct (Z.eqb_spec (JobTemplate.totalWeight w) 100) as [E | E]; simpl; split;
      intros H; try discriminate; try reflexivity; congruence. }
  split; [apply JobTemplateFacts.buildRequirements_weights |].
  split; [| intros d; apply JobTemplateFacts.doubles_card].
  unfold JobTemplate.handleSave.
  destruct (UploadCV.truthy_flag (JobTemplate.backendAvailable st)); simpl.
  - destruct (JobTemplate.id st) as [i |]; [destruct (Str.nonEmpty i) |];
      (split; [reflexivity | apply JobTemplateFacts.buildRequirements_weights]).
  - reflexivity.
Qed.

Lemma totalWeight_flagged_not_enforced_witness :
  JobTemplateDoubles.warning
    (JobTemplateDoubles.weightCard
       (JobTemplateDoubles.ofWhole (JobTemplate.weights MoreSamples.form)))
  = option_map JobTemplateDoubles.ofZ
      (JobTemplate.warning
         (JobTemplate.weightCard (JobTemplate.weights MoreSamples.form))).
Proof.
  assert (Hw : JobTemplateDoubles.slider (JobTemplate.weights MoreSamples.form)).
  { unfold JobTemplateDoubles.slider. simpl.
    repeat (apply Forall_cons; [simpl; lia |]). apply Forall_nil. }
  exact (proj2 (proj2 (proj1 (totalWeight_flagged_not_enforced MoreSamples.form Hw)))).
Defined.

(** With the default weights, which add up to 110, the warning is drawn
    and quotes 110. *)
Example default_weights_warning :
  JobTemplate.weightCard Samples.uneven
  = {| JobTemplate.shown_total := 110; JobTemplate.total_color := color_danger;
       JobTemplate.warning := Some 110 |}.
Proof. reflexivity. Qed.

(** ** The status thresholds and the dataset *)

Module EngineFacts.

Import EngineSpec.
Local Open Scope string_scope.

Lemma derive_status_cases (s : Q) :
  ((80 <= s)%Q /\ derive_status s = "shortlisted")
  \/ ((60 <= s)%Q /\ (s < 80)%Q /\ derive_status s = "review")
  \/ ((s < 60)%Q /\ derive_status s = "rejected").
Proof.
  unfold derive_status.
  destruct (Qle_bool 80 s) eqn:E80.
  - left. split; [now apply Qle_bool_iff | reflexivity].
  - apply ScoreClassFacts.le_bool_false in E80. destruct (Qle_bool 60 s) eqn:E60.
    + right; left. repeat split; [now apply Qle_bool_iff | assumption].
    + right; right. split; [now apply ScoreClassFacts.le_bool_false | reflexivity].
Qed.

Lemma derive_status_iff (s : Q) :
  (derive_status s = "shortlisted" <-> (80 <= s)%Q)
  /\ (derive_status s = "review" <-> (60 <= s)%Q /\ (s < 80)%Q)
  /\ (derive_status s = "rejected" <-> (s < 60)%Q)
  /\ derive_status s <> "interview".
Proof.
  assert (N1 : ~ ((80 <= s)%Q /\ (s < 80)%Q))
    by (intros [A B]; exact (Qlt_not_le _ _ B A)).
  assert (N3 : ~ ((60 <= s)%Q /\ (s < 60)%Q))
    by (intros [A B]; exact (Qlt_not_le _ _ B A)).
  assert (N2 : ~ ((80 <= s)%Q /\ (s < 60)%Q)).
  { intros [A B]. apply (Qlt_not_le _ _ B).
    apply Qle_trans with (y := 80%Q); [discriminate | exact A]. }
  destruct (derive_status_cases s) as [[A E] | [[A [B E]] | [A E]]];
    rewrite E; repeat split; intros; try discriminate; try tauto.
Qed.

Lemma skill_match_filter (cs reqs : list string) (x : string) :
  In x (fst (matchAll cs reqs)) <-> In x reqs /\ skill_match cs x = true.
Proof. unfold matchAll. simpl. apply filter_In. Qed.

Lemma skill_miss_filter (cs reqs : list string) (x : string) :
  In x (snd (matchAll cs reqs)) <-> In x reqs /\ skill_match cs x = false.
Proof.
  unfold matchAll. simpl. rewrite filter_In, negb_true_iff. reflexivity.
Qed.

Lemma matchAll_splits (cs reqs : list string) :
  DatasetRules.splits reqs (fst (matchAll cs reqs)) (snd (matchAll cs reqs)).
Proof.
  split; intros x.
  - rewrite skill_match_filter, skill_miss_filter. intros [_ A] [_ B]. congruence.
  - rewrite skill_match_filter, skill_miss_filter.
    destruct (skill_match cs x); tauto.
Qed.

(** Matched followed by missing is the required list, rearranged. *)
Lemma matchAll_permutation (cs reqs : list string) :
  Permutation (fst (matchAll cs reqs) ++ snd (matchAll cs reqs)) reqs.
Proof.
  unfold matchAll. simpl. induction reqs as [| r reqs IH]; simpl.
  - constructor.
  - destruct (skill_match cs r); simpl.
    + now constructor.
    + symmetry. apply Permutation_cons_app. now symmetry.
Qed.

Lemma existsb_eqb_In (x : string) (l : list string) :
  existsb (String.eqb x) l = true <-> In x l.
Proof.
  rewrite existsb_exists. split.
  - intros [y [Hin E]]. apply String.eqb_eq in E. now subst.
  - intros Hin. exists x. split; [assumption | apply String.eqb_refl].
Qed.

Lemma bootcamp_preferred (bs pp : list string) :
  (exists b, In b bs /\ In b pp) -> bootcamp_score bs pp = 80%Q.
Proof.
  intros [b [Hb Hp]]. unfold bootcamp_score.
  replace (existsb (fun b0 => existsb (String.eqb b0) pp) bs) with true; [reflexivity |].
  symmetry. apply existsb_exists. exists b. split; [assumption |].
  now apply existsb_eqb_In.
Qed.

Lemma bootcamp_other (bs pp : list string) :
  bs <> [] -> (forall b, In b bs -> ~ In b pp) -> bootcamp_score bs pp = 40%Q.
Proof.
  intros Hne Hno. unfold bootcamp_score.
  replace (existsb (fun b0 => existsb (String.eqb b0) pp) bs) with false.
  - destruct bs; [contradiction | reflexivity].
  - symmetry. apply not_true_is_false. intros H. apply existsb_exists in H.
    destruct H as [b [Hb Hp]]. apply existsb_eqb_In in Hp. exact (Hno b Hb Hp).
Qed.

Lemma member_ci_spec (x : string) (l : list string) :
  member_ci x l = true <-> exists a, In a l /\ Str.lower a = Str.lower x.
Proof.
  unfold member_ci. rewrite existsb_exists. split; intros [a [Hin E]]; exists a;
    (split; [assumption |]); now apply String.eqb_eq.
Qed.

End EngineFacts.

(** C3. The status that the engine derives from a total score is
    "shortlisted" exactly from 80 up, "review" exactly from 60 up to but
    below 80, "rejected" exactly below 60, and never "interview"; every
    candidate of the dataset carries the status derived from its score. *)
Theorem status_by_threshold :
  (forall s, EngineSpec.derive_status s = "shortlisted"%string <-> (80 <= s)%Q)
  /\ (forall s, EngineSpec.derive_status s = "review"%string
                <-> (60 <= s)%Q /\ (s < 80)%Q)
  /\ (forall s, EngineSpec.derive_status s = "rejected"%string <-> (s < 60)%Q)
  /\ (forall s, EngineSpec.derive_status s <> "interview"%string)
  /\ Forall (fun c => MockData.status c = EngineSpec.derive_status (MockData.score c))
            MockData.candidates.
Proof.
  split; [intros s; apply (EngineFacts.derive_status_iff s) |].
  split; [intros s; apply (EngineFacts.derive_status_iff s) |].
  split; [intros s; apply (EngineFacts.derive_status_iff s) |].
  split; [intros s; apply (EngineFacts.derive_status_iff s) |].
  repeat constructor.
Qed.

(** C5, as stated, fails on the dataset: John Doe's skills breakdown lists
    "Docker", a preferred skill that is not required, as matched. *)
Lemma skills_split_required_fails : ~ DatasetRules.skills_split_required.
Proof.
  intros H. unfold DatasetRules.skills_split_required in H.
  rewrite Forall_forall in H.
  destruct (H MockData.john (or_intror (or_introl eq_refl))) as [_ U].
  destruct (U "Docker"%string) as [_ V].
  assert (I : In "Docker"%string (MockData.required MockData.jobRequirements)).
  { apply V. left. simpl. tauto. }
  simpl in I. destruct I as [E | [E | [E | []]]]; discriminate.
Qed.

(** C5, amended. The matcher of the specification splits the required
    list: matched and missing share no item, together they hold exactly the
    required items (matched followed by missing is the required list
    rearranged), and a skill that is not required is in neither.  In the
    dataset the matched and missing lists of every skills breakdown share no
    item and hold only skills that [jobRequirements] lists as required or as
    preferred. *)
Theorem skills_matched_missing :
  (forall cs reqs,
      DatasetRules.splits reqs (fst (EngineSpec.matchAll cs reqs))
        (snd (EngineSpec.matchAll cs reqs)))
  /\ (forall cs reqs,
        Permutation (fst (EngineSpec.matchAll cs reqs) ++ snd (EngineSpec.matchAll cs reqs))
          reqs)
  /\ (forall cs reqs p,
        ~ In p reqs ->
        ~ In p (fst (EngineSpec.matchAll cs reqs))
        /\ ~ In p (snd (EngineSpec.matchAll cs reqs)))
  /\ Forall
       (fun c =>
          let sk := MockData.b_skills (MockData.scoreBreakdown c) in
          (forall x, In x (MockData.matched sk) -> ~ In x (MockData.missing sk))
          /\ (forall x,
                In x (MockData.matched sk) \/ In x (MockData.missing sk) ->
                In x (MockData.required MockData.jobRequirements)
                \/ In x (MockData.preferred MockData.jobRequirements)))
       MockData.candidates.
Proof.
  split; [exact EngineFacts.matchAll_splits |].
  split; [exact EngineFacts.matchAll_permutation |].
  split.
  { intros cs reqs p Hp.
    rewrite EngineFacts.skill_match_filter, EngineFacts.skill_miss_filter. tauto. }
  unfold MockData.candidates.
  repeat (apply Forall_cons; [cbn; split; intros x H |]); try apply Forall_nil;
    intuition (subst; try discriminate; simpl; auto 10).
Qed.

(** C6, as stated, fails on the dataset: John Doe's bootcamp, Dicoding, is
    a preferred provider, and his bootcamp breakdown carries 60, not 80. *)
Lemma bootcamp_by_rule_fails : ~ DatasetRules.bootcamp_by_rule.
Proof.
  intros H. unfold DatasetRules.bootcamp_by_rule in H.
  rewrite Forall_forall in H.
  specialize (H MockData.john (or_intror (or_introl eq_refl))).
  vm_compute in H. discriminate H.
Qed.

(** C6, amended. The bootcamp rule of the specification gives 80 when a
    bootcamp of the candidate is a preferred provider, 40 when the candidate
    has bootcamps and none is preferred, and 0 when there is none.  In the
    dataset a candidate without a bootcamp carries 0, and a candidate whose
    bootcamp is a preferred provider carries 80 or 60. *)
Theorem bootcamp_rule_and_dataset :
  (forall bs pp, (exists b, In b bs /\ In b pp) -> EngineSpec.bootcamp_score bs pp = 80%Q)
  /\ (forall bs pp, bs <> [] -> (forall b, In b bs -> ~ In b pp) ->
                    EngineSpec.bootcamp_score bs pp = 40%Q)
  /\ (forall pp, EngineSpec.bootcamp_score [] pp = 0%Q)
  /\ Forall
       (fun c =>
          let s := MockData.c_score (MockData.b_bootcamp (MockData.scoreBreakdown c)) in
          match MockData.bootcamp c with
          | None => (s == 0)%Q
          | Some b =>
              In b (MockData.preferredProviders MockData.jobRequirements)
              /\ ((s == 80)%Q \/ (s == 60)%Q)
          end)
       MockData.candidates.
Proof.
  split; [exact EngineFacts.bootcamp_preferred |].
  split; [exact EngineFacts.bootcamp_other |].
  split; [reflexivity |].
  unfold MockData.candidates.
  apply Forall_cons; [cbn; split; [tauto | left; reflexivity] |].
  apply Forall_cons; [cbn; split; [tauto | right; reflexivity] |].
  apply Forall_cons; [reflexivity |].
  apply Forall_cons; [reflexivity |].
  apply Forall_nil.
Qed.

(** C7, as stated, fails on the dataset: Andi Pratama lives in Bandung,
    an allowed place, and his location breakdown carries 80, not 100. *)
Lemma location_by_rule_fails : ~ DatasetRules.location_by_rule.
Proof.
  intros H. unfold DatasetRules.location_by_rule in H.
  rewrite Forall_forall in H.
  specialize (H MockData.andi (or_intror (or_intror (or_introl eq_refl)))).
  vm_compute in H. discriminate H.
Qed.

(** C7, amended. The location rule of the specification gives 100 to a
    location that is, letter case aside, among the allowed places and 60 to
    any other location.  In the dataset a candidate whose location is allowed
    carries 100 or 80, and a candidate whose location is not allowed
    carries 60. *)
Theorem location_rule_and_dataset :
  (forall l allowed,
      (exists a, In a allowed /\ Str.lower a = Str.lower l) ->
      EngineSpec.location_score (Some l) allowed = 100%Q)
  /\ (forall l allowed,
        (forall a, In a allowed -> Str.lower a <> Str.lower l) ->
        EngineSpec.location_score (Some l) allowed = 60%Q)
  /\ Forall
       (fun c =>
          let s := MockData.c_score (MockData.b_location (MockData.scoreBreakdown c)) in
          if EngineSpec.member_ci (MockData.location c)
               (MockData.allowed MockData.jobRequirements)
          then (s == 100)%Q \/ (s == 80)%Q
          else (s == 60)%Q)
       MockData.candidates.
Proof.
  split.
  { intros l allowed H. apply EngineFacts.member_ci_spec in H.
    unfold EngineSpec.location_score. now rewrite H. }
  split.
  { intros l allowed H. unfold EngineSpec.location_score.
    destruct (EngineSpec.member_ci l allowed) eqn:E; [| reflexivity].
    apply EngineFacts.member_ci_spec in E. destruct E as [a [Hin Ha]].
    now apply H in Hin. }
  unfold MockData.candidates.
  apply Forall_cons; [left; reflexivity |].
  apply Forall_cons; [left; reflexivity |].
  apply Forall_cons; [right; reflexivity |].
  apply Forall_cons; [reflexivity |].
  apply Forall_nil.
Qed.

(** ** More of the upload page *)

Module UploadPageFacts.

Import JS UploadCV UploadPage.

(** The updaters of a call are none, or the upload steps and one last
    update of the entry with the new id. *)
Lemma processFile_shape (env : Env) (files : list UploadedFile) (file : DomFile.t) :
  updaters (processFile env files file) = []
  \/ exists g, keepsId g
       /\ updaters (processFile env files file)
          = uploadSteps (fileId env) file ++ [onId (fileId env) g].
Proof.
  unfold processFile.
  destruct (negb (includes validTypes (DomFile.type file))); [now left |].
  destruct (isDuplicate files file); [now left |].
  destruct (negb (truthy_flag (backendAvailable env))).
  - right. eexists. split; [| reflexivity]. intros f. reflexivity.
  - destruct (scoreCV env file (jobIdOr1 (job env)) true);
      right; eexists; (split; [| reflexivity]); intros f; reflexivity.
Qed.

Lemma onId_length (i : string) (g : UploadedFile -> UploadedFile) (l : list UploadedFile) :
  List.length (onId i g l) = List.length l.
Proof. unfold onId. apply length_map. Qed.

Lemma onId_other (i : string) (g : UploadedFile -> UploadedFile) (l : list UploadedFile)
    (k : nat) (f : UploadedFile) :
  nth_error l k = Some f -> id f <> i -> nth_error (onId i g l) k = Some f.
Proof.
  intros Hk Hid. unfold onId. rewrite nth_error_map, Hk. simpl.
  destruct (String.eqb_spec (id f) i); [contradiction | reflexivity].
Qed.

Lemma onId_commute (i j : string) (g h : UploadedFile -> UploadedFile)
    (l : list UploadedFile) :
  i <> j -> keepsId g -> keepsId h ->
  onId i g (onId j h l) = onId j h (onId i g l).
Proof.
  intros Hij Hg Hh. unfold onId. rewrite !map_map. apply map_ext. intros f.
  destruct (String.eqb_spec (id f) j) as [Ej | Ej];
    destruct (String.eqb_spec (id f) i) as [Ei | Ei].
  - congruence.
  - rewrite Hh. destruct (String.eqb_spec (id f) i); [contradiction |].
    destruct (String.eqb_spec (id f) j); [reflexivity | contradiction].
  - rewrite Hg. destruct (String.eqb_spec (id f) j); [contradiction |].
    destruct (String.eqb_spec (id f) i); [reflexivity | contradiction].
  - destruct (String.eqb_spec (id f) i); [contradiction |].
    destruct (String.eqb_spec (id f) j); [contradiction | reflexivity].
Qed.

Lemma onId_push (i j : string) (g : UploadedFile -> UploadedFile) (file : DomFile.t)
    (l : list UploadedFile) :
  i <> j -> onId i g (l ++ [newFile j file]) = onId i g l ++ [newFile j file].
Proof.
  intros Hij. rewrite UploadFacts.onId_app. f_equal. unfold onId. simpl.
  destruct (String.eqb_spec j i); [congruence | reflexivity].
Qed.

Lemma uploadSteps_StepOf (i : string) (file : DomFile.t) (g : UploadedFile -> UploadedFile) :
  keepsId g -> Forall (StepOf i file) (uploadSteps i file ++ [onId i g]).
Proof.
  intros Hg. unfold uploadSteps, progressSteps. simpl.
  repeat (apply Forall_cons;
          [first [apply step_push | apply step_update; intros f; reflexivity
                 | apply step_update; exact Hg] |]).
  apply Forall_nil.
Qed.

Lemma processFile_StepOf (env : Env) (files : list UploadedFile) (file : DomFile.t) :
  Forall (StepOf (fileId env) file) (updaters (processFile env files file)).
Proof.
  destruct (processFile_shape env files file) as [E | [g [Hg E]]]; rewrite E.
  - apply Forall_nil.
  - now apply uploadSteps_StepOf.
Qed.

(** An update of one entry passes any step of an upload with another id. *)
Lemma update_commutes (i j : string) (file : DomFile.t) (g : UploadedFile -> UploadedFile)
    (v : Updater) (st : list UploadedFile) :
  i <> j -> keepsId g -> StepOf j file v -> onId i g (v st) = v (onId i g st).
Proof.
  intros Hij Hg [| h Hh].
  - now apply onId_push.
  - now apply onId_commute.
Qed.

Lemma run_cons (u : Updater) (us : list Updater) (st : list UploadedFile) :
  run (u :: us) st = run us (u st).
Proof. reflexivity. Qed.

Lemma run_commutes (l : list Updater) (y : Updater) (st : list UploadedFile) :
  Forall (fun u => forall st', u (y st') = y (u st')) l ->
  run l (y st) = y (run l st).
Proof.
  intros H. revert st. induction H as [| u l Hu _ IH]; intros st.
  - reflexivity.
  - rewrite !run_cons, Hu. apply IH.
Qed.

(** Steps that pass one another may be taken in any order. *)
Lemma interleave_run (l r m : list Updater) (st : list UploadedFile) :
  Interleave l r m ->
  Forall (fun v => Forall (fun u => forall st', u (v st') = v (u st')) l) r ->
  run m st = run r (run l st).
Proof.
  intros H. revert st. induction H as [| x l r m _ IH | y l r m _ IH]; intros st Hc.
  - reflexivity.
  - rewrite !run_cons. apply IH.
    eapply Forall_impl; [| exact Hc]. intros v Hv. now inversion Hv.
  - rewrite !run_cons. inversion Hc as [| ? ? Hy Hr]; subst.
    rewrite IH by assumption. f_equal. now apply run_commutes.
Qed.

(** Every schedule of two calls with different ids comes to the same as
    the first call run to its end and then the second. *)
Lemma schedule_run (env1 env2 : Env) (files1 files2 prev : list UploadedFile)
    (file1 file2 : DomFile.t) (m : list Updater) :
  fileId env1 <> fileId env2 ->
  dropSchedule (updaters (processFile env1 files1 file1))
    (updaters (processFile env2 files2 file2)) m ->
  run m prev
  = run (updaters (processFile env2 files2 file2))
      (run (updaters (processFile env1 files1 file1)) prev).
Proof.
  intros Hid Hm.
  pose proof (processFile_StepOf env2 files2 file2) as H2.
  destruct (processFile_shape env1 files1 file1) as [E | [g [Hg E]]];
    rewrite E in *.
  - simpl in Hm. subst m. reflexivity.
  - unfold uploadSteps, progressSteps in *.
    cbn [map app] in *. destruct Hm as [m' [-> Hm]].
    rewrite (run_cons _ m').
    match goal with
    | |- _ = run ?r (run (?u :: ?l) ?st) =>
        change (run r (run (u :: l) st))
          with (run r (run l (u st)))
    end.
    apply interleave_run; [exact Hm |].
    eapply Forall_impl; [| exact H2]. intros v Hv.
    repeat (apply Forall_cons;
            [intros st'; apply update_commutes
                         with (j := fileId env2) (file := file2);
               [exact Hid | first [exact Hg | intros f; reflexivity] | exact Hv] |]).
    apply Forall_nil.
Qed.

Lemma interleave_seq (A : Type) (l r : list A) : Interleave l r (l ++ r).
Proof.
  induction l as [| x l IH]; simpl.
  - induction r as [| y r IH]; constructor; assumption.
  - now constructor.
Qed.

(** One call after the other is one of the schedules. *)
Lemma dropSchedule_seq (first second : list Updater) :
  dropSchedule first second (first ++ second).
Proof.
  destruct first as [| u rest]; simpl.
  - reflexivity.
  - exists (rest ++ second). split; [reflexivity | apply interleave_seq].
Qed.

Lemma interleave_alternate (A : Type) (l r : list A) :
  Interleave l r (alternate l r).
Proof.
  revert r. induction l as [| x l IH]; intros r.
  - destruct r as [| y r]; simpl.
    + constructor.
    + apply il_right. clear. induction r as [| z r IH]; constructor; assumption.
  - destruct r as [| y r]; simpl.
    + apply il_left. clear. induction l as [| z l IH]; constructor; assumption.
    + apply il_right, il_left, IH.
Qed.

(** The steps of two calls taken in turn are one of the schedules, and
    neither call runs to its end before the other starts. *)
Lemma dropSchedule_inTurn (first second : list Updater) :
  dropSchedule first second (inTurn first second).
Proof.
  destruct first as [| u rest]; simpl.
  - reflexivity.
  - exists (alternate rest second). split; [reflexivity | apply interleave_alternate].
Qed.

Lemma inTurn_shape (a b c d e : Updater) (l r : list Updater) :
  inTurn (a :: b :: c :: l) (d :: e :: r) = a :: d :: b :: e :: c :: alternate l r.
Proof. reflexivity. Qed.

(** The updaters of an accepted file, whose last update keeps the id, the
    name and the size of the entry. *)
Lemma processFile_accepted_shape (env : Env) (files : list UploadedFile)
    (file : DomFile.t) :
  accepted files file ->
  exists g, keepsId g
    /\ (forall f, name (g f) = name f /\ size (g f) = size f)
    /\ updaters (processFile env files file)
       = uploadSteps (fileId env) file ++ [onId (fileId env) g].
Proof.
  intros [Hty Hdup]. unfold processFile. rewrite Hty, Hdup. simpl.
  destruct (negb (truthy_flag (backendAvailable env))).
  - eexists. split; [| split; [| reflexivity]]; intros f; [reflexivity | now split].
  - destruct (scoreCV env file (jobIdOr1 (job env)) true);
      eexists; (split; [| split; [| reflexivity]]); intros f;
      [reflexivity | now split | reflexivity | now split].
Qed.

Lemma tenths_quotient (z : Z) (d : positive) :
  tenths (inject_Z z / inject_Z (Zpos d)) = (20 * z + Zpos d) / (2 * Zpos d).
Proof.
  unfold tenths, Qfloor, Qdiv, Qmult, Qplus, Qinv, inject_Z. cbn [Qnum Qden].
  f_equal; lia.
Qed.

Lemma filter_three (A : Type) (p q : A -> bool) (l : list A) :
  (forall a, p a = true -> q a = false) ->
  (List.length (filter p l) + List.length (filter (fun a => negb (p a) && negb (q a)) l)
   + List.length (filter q l) = List.length l)%nat.
Proof.
  intros H. induction l as [| a l IH]; simpl; [reflexivity |].
  destruct (p a) eqn:P.
  - rewrite (H a P). simpl. lia.
  - destruct (q a); simpl; lia.
Qed.

End UploadPageFacts.

(** X1. [removeFile] takes out exactly the entries with the given id: what
    is left are the entries with another id; a list without that id stays
    as it is, and removing twice is removing once. *)
Theorem removeFile_only_that_id (id0 : string) (files : list UploadCV.UploadedFile) :
  (forall f, In f (UploadPage.removeFile id0 files)
             <-> In f files /\ UploadCV.id f <> id0)
  /\ ((forall f, In f files -> UploadCV.id f <> id0) ->
      UploadPage.removeFile id0 files = files)
  /\ UploadPage.removeFile id0 (UploadPage.removeFile id0 files)
     = UploadPage.removeFile id0 files.
Proof.
  unfold UploadPage.removeFile. split; [| split].
  - intros f. rewrite filter_In, negb_true_iff.
    destruct (String.eqb_spec (UploadCV.id f) id0); split; intros [A B];
      split; congruence.
  - intros H. apply forallb_filter_id. apply forallb_forall. intros f Hin.
    apply negb_true_iff. destruct (String.eqb_spec (UploadCV.id f) id0);
      [now apply H in Hin | reflexivity].
  - apply forallb_filter_id. apply forallb_forall. intros f Hin.
    apply filter_In in Hin. tauto.
Qed.

(** X2. Whatever one call of [processFile] does, taking the new id out
    again with [removeFile] gives back the list the updaters started from,
    provided no entry of that list carried the id. *)
Theorem upload_then_remove (env : UploadCV.Env)
    (files prev : list UploadCV.UploadedFile) (file : DomFile.t) :
  (forall f, In f prev -> UploadCV.id f <> UploadCV.fileId env) ->
  UploadPage.removeFile (UploadCV.fileId env)
    (UploadCV.run (UploadCV.updaters (UploadCV.processFile env files file)) prev)
  = prev.
Proof.
  intros Hfresh.
  assert (Hkeep : UploadPage.removeFile (UploadCV.fileId env) prev = prev).
  { unfold UploadPage.removeFile. apply forallb_filter_id. apply forallb_forall.
    intros f Hin. apply negb_true_iff.
    destruct (String.eqb_spec (UploadCV.id f) (UploadCV.fileId env));
      [now apply Hfresh in Hin | reflexivity]. }
  destruct (UploadPageFacts.processFile_shape env files file) as [E | [g [Hg E]]];
    rewrite E.
  - exact Hkeep.
  - rewrite UploadFacts.run_scored, UploadFacts.onId_fresh by assumption.
    unfold UploadPage.removeFile in *. rewrite filter_app, Hkeep. simpl.
    rewrite Hg. simpl. rewrite String.eqb_refl. simpl. apply app_nil_r.
Qed.

Lemma upload_then_remove_witness :
  UploadPage.removeFile (UploadCV.fileId Samples.offline)
    (UploadCV.run (UploadCV.updaters
                     (UploadCV.processFile Samples.offline [] Samples.cv))
       [UploadCV.simulated "1729999999000zzzzzzzzz" Samples.letter])
  = [UploadCV.simulated "1729999999000zzzzzzzzz" Samples.letter].
Proof.
  apply (upload_then_remove Samples.offline []
           [UploadCV.simulated "1729999999000zzzzzzzzz" Samples.letter] Samples.cv).
  intros f [<- | []]. discriminate.
Defined.

(** X3. The three counters under the list add up to the number of entries:
    every entry is counted as scored, as pending or as an error, and as one
    of them only. *)
Theorem counters_add_up (files : list UploadCV.UploadedFile) :
  (UploadPage.scoredCount files + UploadPage.pendingCount files
   + UploadPage.errorCount files = List.length files)%nat.
Proof.
  unfold UploadPage.scoredCount, UploadPage.pendingCount, UploadPage.errorCount.
  apply (UploadPageFacts.filter_three _
           (fun f => UploadPage.isScored (UploadCV.status f))
           (fun f => UploadCV.statusIsError (UploadCV.status f))).
  intros f. destruct (UploadCV.status f); simpl; congruence.
Qed.

(** X4. A call of [processFile] changes no row but its own: the list grows
    by at most one entry, and every entry that carries another id than the
    new one stays where it was, unchanged. *)
Theorem upload_touches_own_row (env : UploadCV.Env)
    (files prev : list UploadCV.UploadedFile) (file : DomFile.t) :
  let final :=
    UploadCV.run (UploadCV.updaters (UploadCV.processFile env files file)) prev in
  (List.length final = List.length prev \/ List.length final = S (List.length prev))
  /\ forall k f, nth_error prev k = Some f -> UploadCV.id f <> UploadCV.fileId env ->
                 nth_error final k = Some f.
Proof.
  intros final. subst final.
  destruct (UploadPageFacts.processFile_shape env files file) as [E | [g [Hg E]]];
    rewrite E.
  - split; [now left | intros k f Hk _; exact Hk].
  - rewrite UploadFacts.run_scored. split.
    + right. rewrite length_app, UploadPageFacts.onId_length. simpl. lia.
    + intros k f Hk Hid. rewrite nth_error_app1.
      * now apply UploadPageFacts.onId_other.
      * rewrite UploadPageFacts.onId_length. apply nth_error_Some. congruence.
Qed.

(** X5. When the request of an accepted file is rejected, the entry ends
    with status "error", progress 100, no score, and the message of the
    thrown error, or "Unknown error" when what was thrown is no [Error];
    its row has the error background and no score link; one request was
    sent and no alert raised. *)
Theorem rejected_upload_entry (env : UploadCV.Env)
    (files prev : list UploadCV.UploadedFile) (file : DomFile.t) (m : option string) :
  UploadCV.accepted files file ->
  UploadCV.backendAvailable env = Some true ->
  UploadCV.scoreCV env file (UploadCV.jobIdOr1 (UploadCV.job env)) true
  = UploadCV.Rejected m ->
  exists (rest : list UploadCV.UploadedFile) (e : UploadCV.UploadedFile),
    UploadCV.run (UploadCV.updaters (UploadCV.processFile env files file)) prev
    = rest ++ [e]
    /\ e = {| UploadCV.id := UploadCV.fileId env;
              UploadCV.name := DomFile.name file;
              UploadCV.size := DomFile.size file;
              UploadCV.status := UploadCV.Error;
              UploadCV.progress := 100;
              UploadCV.score := None;
              UploadCV.candidateId := None;
              UploadCV.candidateName := None;
              UploadCV.error :=
                Some (match m with Some s => s | None => "Unknown error"%string end) |}
    /\ UploadCV.row_error_background (UploadCV.renderRow e) = true
    /\ UploadCV.row_score (UploadCV.renderRow e) = None
    /\ List.length (UploadCV.requests (UploadCV.processFile env files file)) = 1%nat
    /\ UploadCV.alerts (UploadCV.processFile env files file) = [].
Proof.
  intros [Hty Hdup] Hb Hr.
  assert (E : UploadCV.processFile env files file
              = {| UploadCV.alerts := [];
                   UploadCV.requests :=
                     [{| UploadCV.req_file := file;
                         UploadCV.req_jobId := UploadCV.jobIdOr1 (UploadCV.job env);
                         UploadCV.req_save := true |}];
                   UploadCV.updaters :=
                     UploadCV.uploadSteps (UploadCV.fileId env) file
                     ++ [UploadCV.onId (UploadCV.fileId env)
                           (UploadCV.set_error (UploadCV.errorMessage m))] |}).
  { unfold UploadCV.processFile. now rewrite Hty, Hdup, Hb, Hr. }
  rewrite E. cbn [UploadCV.updaters UploadCV.requests UploadCV.alerts].
  rewrite UploadFacts.run_scored.
  eexists. eexists. split; [reflexivity |].
  repeat split.
Qed.

Lemma rejected_upload_entry_witness :
  exists (rest : list UploadCV.UploadedFile) (e : UploadCV.UploadedFile),
    UploadCV.run (UploadCV.updaters
                    (UploadCV.processFile MoreSamples.failing [] Samples.cv)) []
    = rest ++ [e]
    /\ e = {| UploadCV.id := UploadCV.fileId MoreSamples.failing;
              UploadCV.name := DomFile.name Samples.cv;
              UploadCV.size := DomFile.size Samples.cv;
              UploadCV.status := UploadCV.Error;
              UploadCV.progress := 100;
              UploadCV.score := None;
              UploadCV.candidateId := None;
              UploadCV.candidateName := None;
              UploadCV.error := Some "Unknown error"%string |}
    /\ UploadCV.row_error_background (UploadCV.renderRow e) = true
    /\ UploadCV.row_score (UploadCV.renderRow e) = None
    /\ List.length (UploadCV.requests
                      (UploadCV.processFile MoreSamples.failing [] Samples.cv)) = 1%nat
    /\ UploadCV.alerts (UploadCV.processFile MoreSamples.failing [] Samples.cv) = [].
Proof.
  apply (rejected_upload_entry MoreSamples.failing [] [] Samples.cv None).
  - split; reflexivity.
  - reflexivity.
  - reflexivity.
Defined.

(** X6. A file whose type is neither PDF nor DOCX is turned away before
    anything else is looked at: one alert about the type (also when the list
    holds a file of that name and size), no request, no update of the list. *)
Theorem unsupported_type_refused (env : UploadCV.Env)
    (files : list UploadCV.UploadedFile) (file : DomFile.t) :
  DomFile.type file <> "application/pdf"%string ->
  DomFile.type file
  <> "application/vnd.openxmlformats-officedocument.wordprocessingml.document"%string ->
  UploadCV.processFile env files file
  = {| UploadCV.alerts := [UploadCV.AlertUnsupported (DomFile.name file)];
       UploadCV.requests := [];
       UploadCV.updaters := [] |}.
Proof.
  intros H1 H2. unfold UploadCV.processFile, UploadCV.includes, UploadCV.validTypes.
  simpl. apply String.eqb_neq in H1, H2. now rewrite H1, H2.
Qed.

Lemma unsupported_type_refused_witness :
  UploadCV.processFile Samples.offline
    [UploadCV.simulated "1729999999000zzzzzzzzz" MoreSamples.picture] MoreSamples.picture
  = {| UploadCV.alerts := [UploadCV.AlertUnsupported (DomFile.name MoreSamples.picture)];
       UploadCV.requests := [];
       UploadCV.updaters := [] |}.
Proof.
  apply (unsupported_type_refused Samples.offline
           [UploadCV.simulated "1729999999000zzzzzzzzz" MoreSamples.picture]
           MoreSamples.picture); discriminate.
Defined.

(** X7. Two uploads started by one drop do not disturb one another: if
    their ids differ, every order in which their steps can come leaves the
    list that running the first upload to its end and then the second
    leaves. *)
Theorem dropped_uploads_independent (env1 env2 : UploadCV.Env)
    (files1 files2 prev : list UploadCV.UploadedFile) (file1 file2 : DomFile.t)
    (m : list UploadCV.Updater) :
  UploadCV.fileId env1 <> UploadCV.fileId env2 ->
  UploadPage.dropSchedule
    (UploadCV.updaters (UploadCV.processFile env1 files1 file1))
    (UploadCV.updaters (UploadCV.processFile env2 files2 file2)) m ->
  UploadCV.run m prev
  = UploadCV.run (UploadCV.updaters (UploadCV.processFile env2 files2 file2))
      (UploadCV.run (UploadCV.updaters (UploadCV.processFile env1 files1 file1)) prev).
Proof. apply UploadPageFacts.schedule_run. Qed.

Lemma dropped_uploads_independent_witness :
  UploadCV.run
    (UploadPage.inTurn
       (UploadCV.updaters (UploadCV.processFile Samples.pending [] Samples.cv))
       (UploadCV.updaters (UploadCV.processFile Samples.offline [] Samples.letter))) []
  = UploadCV.run (UploadCV.updaters (UploadCV.processFile Samples.offline [] Samples.letter))
      (UploadCV.run (UploadCV.updaters (UploadCV.processFile Samples.pending [] Samples.cv))
         []).
Proof.
  apply (dropped_uploads_independent Samples.pending Samples.offline [] [] []
           Samples.cv Samples.letter).
  - discriminate.
  - apply UploadPageFacts.dropSchedule_inTurn.
Defined.

(** X8. The guard against a second upload looks at the list as the page
    last drew it: when one drop brings two accepted files of the same name
    and size, each under its own id, both are added, and the list ends with
    two entries of that name and size. *)
Theorem same_file_dropped_twice (env1 env2 : UploadCV.Env)
    (files prev : list UploadCV.UploadedFile) (file1 file2 : DomFile.t)
    (m : list UploadCV.Updater) :
  UploadCV.accepted files file1 ->
  UploadCV.accepted files file2 ->
  DomFile.name file1 = DomFile.name file2 ->
  DomFile.size file1 = DomFile.size file2 ->
  UploadCV.fileId env1 <> UploadCV.fileId env2 ->
  UploadPage.dropSchedule
    (UploadCV.updaters (UploadCV.processFile env1 files file1))
    (UploadCV.updaters (UploadCV.processFile env2 files file2)) m ->
  exists (rest : list UploadCV.UploadedFile) (e1 e2 : UploadCV.UploadedFile),
    UploadCV.run m prev = rest ++ [e1; e2]
    /\ List.length rest = List.length prev
    /\ UploadCV.id e1 = UploadCV.fileId env1
    /\ UploadCV.id e2 = UploadCV.fileId env2
    /\ UploadCV.name e1 = DomFile.name file1
    /\ UploadCV.name e2 = DomFile.name file1
    /\ UploadCV.size e1 = DomFile.size file1
    /\ UploadCV.size e2 = DomFile.size file1.
Proof.
  intros A1 A2 Hn Hs Hid Hm.
  rewrite (UploadPageFacts.schedule_run env1 env2 files files prev file1 file2 m Hid Hm).
  destruct (UploadPageFacts.processFile_accepted_shape env1 files file1 A1)
    as [g1 [K1 [P1 E1]]].
  destruct (UploadPageFacts.processFile_accepted_shape env2 files file2 A2)
    as [g2 [K2 [P2 E2]]].
  rewrite E1, E2, !UploadFacts.run_scored, UploadFacts.onId_app.
  set (e1 := g1 (UploadCV.set_parsing (UploadCV.newFile (UploadCV.fileId env1) file1))).
  set (e2 := g2 (UploadCV.set_parsing (UploadCV.newFile (UploadCV.fileId env2) file2))).
  assert (I1 : UploadCV.id e1 = UploadCV.fileId env1) by (subst e1; now rewrite K1).
  assert (I2 : UploadCV.id e2 = UploadCV.fileId env2) by (subst e2; now rewrite K2).
  exists (UploadCV.onId (UploadCV.fileId env2)
            (fun f => g2 (UploadCV.set_parsing f))
            (UploadCV.onId (UploadCV.fileId env1)
               (fun f => g1 (UploadCV.set_parsing f)) prev)), e1, e2.
  split.
  { rewrite <- app_assoc. f_equal. unfold UploadCV.onId at 1. simpl. rewrite I1.
    destruct (String.eqb_spec (UploadCV.fileId env1) (UploadCV.fileId env2));
      [contradiction | reflexivity]. }
  split; [now rewrite !UploadPageFacts.onId_length |].
  split; [exact I1 |]. split; [exact I2 |].
  subst e1 e2.
  destruct (P1 (UploadCV.set_parsing (UploadCV.newFile (UploadCV.fileId env1) file1)))
    as [N1 S1].
  destruct (P2 (UploadCV.set_parsing (UploadCV.newFile (UploadCV.fileId env2) file2)))
    as [N2 S2].
  rewrite N1, N2, S1, S2. simpl. rewrite Hn, Hs. repeat split.
Qed.

Lemma same_file_dropped_twice_witness :
  exists (rest : list UploadCV.UploadedFile) (e1 e2 : UploadCV.UploadedFile),
    UploadCV.run
      (UploadCV.updaters (UploadCV.processFile Samples.pending [] Samples.cv)
       ++ UploadCV.updaters (UploadCV.processFile Samples.offline [] Samples.letter)) []
    = rest ++ [e1; e2]
    /\ List.length rest = List.length (@nil UploadCV.UploadedFile)
    /\ UploadCV.id e1 = UploadCV.fileId Samples.pending
    /\ UploadCV.id e2 = UploadCV.fileId Samples.offline
    /\ UploadCV.name e1 = DomFile.name Samples.cv
    /\ UploadCV.name e2 = DomFile.name Samples.cv
    /\ UploadCV.size e1 = DomFile.size Samples.cv
    /\ UploadCV.size e2 = DomFile.size Samples.cv.
Proof.
  apply (same_file_dropped_twice Samples.pending Samples.offline [] []
           Samples.cv Samples.letter).
  - split; reflexivity.
  - split; reflexivity.
  - reflexivity.
  - reflexivity.
  - discriminate.
  - apply UploadPageFacts.dropSchedule_seq.
Defined.

(** X9. [formatFileSize] shows the last 51 byte counts below one mebibyte
    as "1024.0 KB": the quotient by 1024 rounds up to 1024.0 while the
    count is still under the bound of the KB branch. *)
Theorem formatFileSize_1024_KB (bytes : N) :
  (1048525 <= bytes < 1048576)%N ->
  UploadPage.formatFileSize bytes = JS.of_string "1024.0 KB".
Proof.
  intros [Hlo Hhi]. unfold UploadPage.formatFileSize.
  destruct (N.ltb_spec bytes 1024); [lia |].
  destruct (N.ltb_spec bytes (1024 * 1024)); [| lia].
  unfold UploadPage.toFixed1.
  change (1024%Q) with (inject_Z (Zpos 1024)).
  rewrite UploadPageFacts.tenths_quotient.
  replace ((20 * Z.of_N bytes + Z.pos 1024) / (2 * Z.pos 1024)) with 10240.
  - reflexivity.
  - apply Z.div_unique with (r := 20 * Z.of_N bytes + 1024 - 2048 * 10240); lia.
Qed.

Lemma formatFileSize_1024_KB_witness :
  UploadPage.formatFileSize 1048575 = JS.of_string "1024.0 KB".
Proof. apply (formatFileSize_1024_KB 1048575). split; [discriminate | reflexivity]. Defined.

(** ** The candidate page, the dashboard and the query *)

Module CandidatePageFacts.

Import JS CandidatePage.

Lemma split_cons (sep : Z) (s : jsstring) : exists h t, split sep s = h :: t.
Proof.
  destruct s as [| c s]; simpl.
  - now exists [], [].
  - destruct (c =? sep); [now exists [], (split sep s) |].
    destruct (split sep s) as [| h t]; [now exists [c], [] | now exists (c :: h), t].
Qed.

(** The first units of the pieces are none exactly when there are only
    separators. *)
Lemma firstUnits_nil (sep : Z) (s : jsstring) :
  flat_map firstUnit (split sep s) = [] <-> Forall (fun c => c = sep) s.
Proof.
  induction s as [| c s IH]; simpl.
  - split; [constructor | reflexivity].
  - destruct (Z.eqb_spec c sep) as [E | E].
    + simpl. rewrite IH. split; intros H.
      * now constructor.
      * now inversion H.
    + destruct (split sep s) as [| h t]; simpl; split; intros H;
        try discriminate; inversion H; contradiction.
Qed.

Lemma firstUnits_head (sep c : Z) (s : jsstring) :
  c <> sep -> exists rest, flat_map firstUnit (split sep (c :: s)) = c :: rest.
Proof.
  intros E. simpl. destruct (Z.eqb_spec c sep); [contradiction |].
  destruct (split sep s) as [| h t]; simpl; eexists; reflexivity.
Qed.

Lemma click_candidate (b : Button) (ok : bool) (st : PageState) (c : ApiData.Candidate) :
  candidate st = Some c ->
  candidate (click b ok st) = Some c
  \/ candidate (click b ok st) = Some (setStatus (target b) c).
Proof.
  intros Hc. unfold click. destruct (disabled b st); [now left |].
  unfold handleStatusUpdate. rewrite Hc. destruct ok; simpl; [now right | now left].
Qed.

Lemma setStatus_twice (s t : string) (c : ApiData.Candidate) :
  setStatus s (setStatus t c) = setStatus s c.
Proof. reflexivity. Qed.

Lemma setStatus_same (c : ApiData.Candidate) : setStatus (ApiData.status c) c = c.
Proof. now destruct c. Qed.

End CandidatePageFacts.

(** X10. The avatar holds at most two code units; a missing or empty name
    gives "U"; a name that starts with another unit than a space gives an
    avatar that starts with that unit; and a name that is not empty gives an
    empty avatar exactly when it is made of spaces only. *)
Theorem avatar_initials (name : option JS.jsstring) :
  (List.length (CandidatePage.avatar name) <= 2)%nat
  /\ (name = None \/ name = Some [] -> CandidatePage.avatar name = [85])
  /\ (forall c n, name = Some (c :: n) -> c <> 32 ->
                  exists rest, CandidatePage.avatar name = c :: rest)
  /\ (forall c n, name = Some (c :: n) ->
                  (CandidatePage.avatar name = [] <-> Forall (fun u => u = 32) (c :: n))).
Proof.
  split; [apply firstn_le_length |].
  split; [intros [-> | ->]; reflexivity |].
  split.
  - intros c n -> Hc. unfold CandidatePage.avatar. cbn [UploadCV.truthy_str].
    destruct (CandidatePageFacts.firstUnits_head 32 c n Hc) as [rest ->].
    simpl. eexists. reflexivity.
  - intros c n ->. unfold CandidatePage.avatar. cbn [UploadCV.truthy_str].
    rewrite <- CandidatePageFacts.firstUnits_nil.
    destruct (flat_map CandidatePage.firstUnit (CandidatePage.split 32 (c :: n)))
      as [| a [| b l]]; simpl; split; intros H; try reflexivity; discriminate.
Qed.

(** X11. Whatever buttons are clicked and whatever the back end answers,
    the candidate on the page stays the one that was loaded, but for the
    status; the status is the loaded one or one of "shortlisted",
    "interview" and "rejected"; no click brings "review" back, and the
    score plays no part. *)
Theorem status_buttons (cs : list (CandidatePage.Button * bool))
    (st : CandidatePage.PageState) :
  match CandidatePage.candidate st with
  | None => CandidatePage.candidate (CandidatePage.clicks cs st) = None
  | Some c =>
      exists s,
        CandidatePage.candidate (CandidatePage.clicks cs st)
        = Some (CandidatePage.setStatus s c)
        /\ (s = ApiData.status c
            \/ In s ["shortlisted"; "interview"; "rejected"]%string)
        /\ (s = "review"%string -> ApiData.status c = "review"%string)
  end.
Proof.
  revert st. induction cs as [| [b ok] cs IH]; intros st.
  - simpl. destruct (CandidatePage.candidate st) as [c |]; [| reflexivity].
    exists (ApiData.status c). rewrite CandidatePageFacts.setStatus_same.
    split; [reflexivity | split; [now left | tauto]].
  - unfold CandidatePage.clicks in *. simpl.
    specialize (IH (CandidatePage.click b ok st)).
    destruct (CandidatePage.candidate st) as [c |] eqn:Hc.
    + destruct (CandidatePageFacts.click_candidate b ok st c Hc) as [E | E];
        rewrite E in IH; destruct IH as [s [Hs [Hin Hrev]]].
      * exists s. split; [exact Hs | split; assumption].
      * exists s. rewrite CandidatePageFacts.setStatus_twice in Hs.
        split; [exact Hs |]. simpl in Hin, Hrev.
        assert (T : In (CandidatePage.target b)
                      ["shortlisted"; "interview"; "rejected"]%string)
          by (destruct b; simpl; tauto).
        split.
        -- destruct Hin as [-> | Hin]; [right; exact T | right; exact Hin].
        -- intros ->. destruct Hin as [Hin | Hin].
           ++ rewrite <- Hin in T. simpl in T.
              destruct T as [X | [X | [X | []]]]; discriminate.
           ++ simpl in Hin. destruct Hin as [X | [X | [X | []]]]; discriminate.
    + assert (E : CandidatePage.candidate (CandidatePage.click b ok st) = None).
      { unfold CandidatePage.click, CandidatePage.disabled. now rewrite Hc. }
      now rewrite E in IH.
Qed.

(** X12. [getCandidates] never writes a parameter whose value is 0 or the
    empty string into the query: a lower score bound of 0 is left out like
    one that was never given, so the query for scores from 0 to [hi] is the
    query for scores up to [hi]. *)
Theorem getCandidates_drops_falsy (f : ApiData.Filters) :
  Forall (fun kv => ApiData.truthyValue (snd kv) = true)
         (ApiData.getCandidatesParams (Some f))
  /\ ApiData.getCandidatesParams
       (Some {| ApiData.f_job_id := ApiData.f_job_id f;
                ApiData.f_status := ApiData.f_status f;
                ApiData.f_min_score := Some 0;
                ApiData.f_max_score := ApiData.f_max_score f;
                ApiData.f_search := ApiData.f_search f |})
     = ApiData.getCandidatesParams
         (Some {| ApiData.f_job_id := ApiData.f_job_id f;
                  ApiData.f_status := ApiData.f_status f;
                  ApiData.f_min_score := None;
                  ApiData.f_max_score := ApiData.f_max_score f;
                  ApiData.f_search := ApiData.f_search f |}).
Proof.
  split; [| reflexivity].
  assert (Hn : forall k v, Forall (fun kv => ApiData.truthyValue (snd kv) = true)
                             (ApiData.numParam k v)).
  { intros k [n |]; simpl; [| constructor].
    destruct (n =? 0) eqn:E; [constructor |].
    constructor; [simpl; now rewrite E | constructor]. }
  assert (Hs : forall k v, Forall (fun kv => ApiData.truthyValue (snd kv) = true)
                             (ApiData.strParam k v)).
  { intros k [s |]; simpl; [| constructor].
    destruct (Str.nonEmpty s) eqn:E; [| constructor].
    constructor; [exact E | constructor]. }
  unfold ApiData.getCandidatesParams. repeat (apply Forall_app; split); auto.
Qed.

(** X13. The skills cell loses no skill: it shows the first four, and
    behind the [+] stands the number of the others, which is given only when
    there are more than four and is then at least 1. *)
Theorem skillsCell_counts (skills : list string) :
  let cell := DashboardPage.skillsCell skills in
  fst cell = firstn 4 skills
  /\ (List.length (fst cell) <= 4)%nat
  /\ (List.length (fst cell) + match snd cell with Some n => n | None => 0 end
      = List.length skills)%nat
  /\ (snd cell = None <-> (List.length skills <= 4)%nat)
  /\ snd cell <> Some 0%nat.
Proof.
  unfold DashboardPage.skillsCell. cbn [fst snd].
  split; [reflexivity |]. rewrite length_firstn.
  destruct (Nat.ltb_spec 4 (List.length skills)) as [H | H].
  - repeat split; try lia; try discriminate. intros E. injection E. lia.
  - repeat split; try lia; try discriminate; intros; reflexivity.
Qed.

(** ** The job form *)

Module JobFormFacts.

Import JobForm.
Local Open Scope string_scope.

Lemma includes_In (l : list string) (x : string) : includes l x = true <-> In x l.
Proof.
  unfold includes. rewrite existsb_exists. split.
  - intros [y [Hin E]]. apply String.eqb_eq in E. now subst.
  - intros Hin. exists x. split; [assumption | apply String.eqb_refl].
Qed.

Lemma includes_not_In (l : list string) (x : string) : includes l x = false <-> ~ In x l.
Proof.
  rewrite <- includes_In. destruct (includes l x); split; intros H;
    try reflexivity; try discriminate; congruence.
Qed.

Lemma removeSkill_In (x y : string) (l : list string) :
  In y (removeSkill x l) <-> In y l /\ y <> x.
Proof.
  unfold removeSkill. rewrite filter_In, negb_true_iff, String.eqb_neq. reflexivity.
Qed.

Lemma removeSkill_absent (x : string) (l : list string) :
  ~ In x l -> removeSkill x l = l.
Proof.
  intros H. unfold removeSkill. apply forallb_filter_id. apply forallb_forall.
  intros y Hy. apply negb_true_iff, String.eqb_neq. intros ->. contradiction.
Qed.

Lemma removeSkill_NoDup (x : string) (l : list string) : NoDup l -> NoDup (removeSkill x l).
Proof. apply NoDup_filter. Qed.

Lemma NoDup_snoc (x : string) (l : list string) : NoDup l -> ~ In x l -> NoDup (l ++ [x]).
Proof.
  intros Hl Hx. apply NoDup_app; [assumption | repeat constructor; intros [] |].
  intros y Hy [<- | []]. contradiction.
Qed.

Lemma numOr_id (n d : Z) : d <> 0%Z -> (numOr n d = n <-> n <> 0%Z).
Proof.
  intros Hd. unfold numOr. destruct (Z.eqb_spec n 0); split; intros H; congruence.
Qed.

End JobFormFacts.

(** X14. Adding a skill keeps the list free of repeats and of the empty
    text and loses nothing: the text of the box is appended, and the box
    cleared, when it is not empty and not yet in the list (compared letter
    for letter); otherwise list and box stay as they are. *)
Theorem addSkill_invariants (box : JobForm.SkillBox) :
  let after := JobForm.addRequiredSkill box in
  (NoDup (JobForm.skills box) -> NoDup (JobForm.skills after))
  /\ (~ In ""%string (JobForm.skills box) -> ~ In ""%string (JobForm.skills after))
  /\ (forall x, In x (JobForm.skills box) -> In x (JobForm.skills after))
  /\ ((JobForm.newSkill box <> ""%string /\ ~ In (JobForm.newSkill box) (JobForm.skills box)
       /\ after = {| JobForm.skills := JobForm.skills box ++ [JobForm.newSkill box];
                     JobForm.newSkill := ""%string |})
      \/ ((JobForm.newSkill box = ""%string \/ In (JobForm.newSkill box) (JobForm.skills box))
          /\ after = box))
  /\ JobForm.addPreferredSkill box = after.
Proof.
  intros after. subst after. unfold JobForm.addRequiredSkill, JobForm.addPreferredSkill,
    JobForm.addSkill.
  destruct (JobForm.newSkill box) as [| a n] eqn:En; simpl.
  - split; [tauto |]. split; [tauto |]. split; [tauto |]. split; [| reflexivity].
    right. split; [now left | reflexivity].
  - destruct (JobForm.includes (JobForm.skills box) (String a n)) eqn:Ei; simpl.
    + apply JobFormFacts.includes_In in Ei.
      split; [tauto |]. split; [tauto |]. split; [tauto |]. split; [| reflexivity].
      right. split; [now right | reflexivity].
    + apply JobFormFacts.includes_not_In in Ei.
      split; [intros H; now apply JobFormFacts.NoDup_snoc |].
      split.
      { intros H Hin. apply in_app_or in Hin. destruct Hin as [Hin | [E | []]];
          [contradiction | discriminate]. }
      split; [intros x Hx; apply in_or_app; now left |].
      split; [| reflexivity].
      left. split; [discriminate | split; [exact Ei | reflexivity]].
Qed.

(** X15. A skill that was just added is taken out again by [removeSkill],
    and the list is as before: adding a text that is not empty and not in
    the list and then removing it gives back the list. *)
Theorem add_then_remove (box : JobForm.SkillBox) :
  JobForm.newSkill box <> ""%string ->
  ~ In (JobForm.newSkill box) (JobForm.skills box) ->
  JobForm.removeSkill (JobForm.newSkill box)
    (JobForm.skills (JobForm.addRequiredSkill box))
  = JobForm.skills box.
Proof.
  intros Hne Hnot. unfold JobForm.addRequiredSkill, JobForm.addSkill.
  assert (Hn : Str.nonEmpty (JobForm.newSkill box) = true)
    by (destruct (JobForm.newSkill box); [contradiction | reflexivity]).
  rewrite Hn. apply JobFormFacts.includes_not_In in Hnot. rewrite Hnot.
  cbn [andb negb JobForm.skills].
  unfold JobForm.removeSkill. rewrite filter_app. cbn [filter].
  rewrite String.eqb_refl. cbn [negb]. rewrite app_nil_r.
  apply JobFormFacts.removeSkill_absent.
  now apply JobFormFacts.includes_not_In.
Qed.

Lemma add_then_remove_witness :
  JobForm.removeSkill "Docker"
    (JobForm.skills
       (JobForm.addRequiredSkill
          {| JobForm.skills := ["Python"; "SQL"; "REST API"]%string;
             JobForm.newSkill := "Docker" |}))
  = ["Python"; "SQL"; "REST API"]%string.
Proof.
  apply (add_then_remove {| JobForm.skills := ["Python"; "SQL"; "REST API"]%string;
                            JobForm.newSkill := "Docker" |}).
  - discriminate.
  - simpl. intros [E | [E | [E | []]]]; discriminate.
Defined.

(** X16. Ticking a provider flips its membership and nobody else's:
    afterwards it is in the list exactly when it was not before, every other
    provider is in the list exactly when it was before, a list without
    repeats stays without repeats, and ticking twice a provider that was not
    in the list gives back the list. *)
Theorem toggleProvider_flips (provider : string) (prev : list string) :
  (In provider (JobForm.toggleProvider provider prev) <-> ~ In provider prev)
  /\ (forall q, q <> provider ->
                (In q (JobForm.toggleProvider provider prev) <-> In q prev))
  /\ (NoDup prev -> NoDup (JobForm.toggleProvider provider prev))
  /\ (~ In provider prev ->
      JobForm.toggleProvider provider (JobForm.toggleProvider provider prev) = prev)
  /\ JobForm.togglePlatform provider prev = JobForm.toggleProvider provider prev.
Proof.
  unfold JobForm.togglePlatform, JobForm.toggleProvider, JobForm.toggle.
  destruct (JobForm.includes prev provider) eqn:Ei.
  - apply JobFormFacts.includes_In in Ei.
    change (filter (fun p => negb (String.eqb p provider)) prev)
      with (JobForm.removeSkill provider prev).
    split.
    { rewrite JobFormFacts.removeSkill_In. tauto. }
    split.
    { intros q Hq. rewrite JobFormFacts.removeSkill_In. tauto. }
    split; [apply JobFormFacts.removeSkill_NoDup |].
    split; [tauto | reflexivity].
  - apply JobFormFacts.includes_not_In in Ei.
    split.
    { split; [tauto |]. intros _. apply in_or_app. right. now left. }
    split.
    { intros q Hq. split.
      - intros Hin. apply in_app_or in Hin.
        destruct Hin as [Hin | [E | []]]; [assumption | congruence].
      - intros Hin. apply in_or_app. now left. }
    split; [intros Hnd; now apply JobFormFacts.NoDup_snoc |].
    split; [| reflexivity].
    intros _.
    assert (I : JobForm.includes (prev ++ [provider]) provider = true).
    { apply JobFormFacts.includes_In. apply in_or_app. right. now left. }
    rewrite I. rewrite filter_app. cbn [filter]. rewrite String.eqb_refl.
    cbn [negb]. rewrite app_nil_r. now apply JobFormFacts.removeSkill_absent.
Qed.

(** X17. A weight of 0 does not survive saving and loading: the form that
    loads what was saved holds the six weights that were saved exactly when
    none of them is 0; a weight of 0 comes back as the default of its
    criterion. *)
Theorem weights_survive_reload (ident : Z) (created : string) (active : bool)
    (st st0 : JobTemplate.FormState) :
  let w := JobTemplate.weights st in
  let loaded := JobTemplate.weights (JobForm.loadJobData
                                       (JobForm.savedJob ident created active st) st0) in
  (loaded = w
   <-> JobTemplate.education w <> 0 /\ JobTemplate.experience w <> 0
       /\ JobTemplate.skills w <> 0 /\ JobTemplate.bootcamp w <> 0
       /\ JobTemplate.portfolio w <> 0 /\ JobTemplate.location w <> 0)
  /\ loaded
     = {| JobTemplate.education := if JobTemplate.education w =? 0 then 15
                                   else JobTemplate.education w;
          JobTemplate.experience := if JobTemplate.experience w =? 0 then 25
                                    else JobTemplate.experience w;
          JobTemplate.skills := if JobTemplate.skills w =? 0 then 40
                                else JobTemplate.skills w;
          JobTemplate.bootcamp := if JobTemplate.bootcamp w =? 0 then 10
                                  else JobTemplate.bootcamp w;
          JobTemplate.portfolio := if JobTemplate.portfolio w =? 0 then 15
                                   else JobTemplate.portfolio w;
          JobTemplate.location := if JobTemplate.location w =? 0 then 5
                                  else JobTemplate.location w |}.
Proof.
  intros w loaded. subst w loaded.
  destruct st as [i b t d [e x s bc p l] ? ? ? ? ? ? ? ? ?].
  cbn [JobForm.loadJobData JobForm.savedJob JobTemplate.weights
       ApiData.job_requirements JobTemplate.buildRequirements
       Api.education Api.experience Api.skills Api.bootcamp Api.portfolio Api.location
       Api.edu_weight Api.exp_weight Api.sk_weight Api.bc_weight Api.pf_weight
       Api.loc_weight JobTemplate.education JobTemplate.experience JobTemplate.skills
       JobTemplate.bootcamp JobTemplate.portfolio JobTemplate.location].
  unfold JobForm.numOr. split; [| reflexivity].
  split.
  - intros H. injection H as He Hx Hs Hb Hp Hl.
    destruct (Z.eqb_spec e 0), (Z.eqb_spec x 0), (Z.eqb_spec s 0),
             (Z.eqb_spec bc 0), (Z.eqb_spec p 0), (Z.eqb_spec l 0); lia.
  - intros [He [Hx [Hs [Hb [Hp Hl]]]]].
    destruct (Z.eqb_spec e 0), (Z.eqb_spec x 0), (Z.eqb_spec s 0),
             (Z.eqb_spec bc 0), (Z.eqb_spec p 0), (Z.eqb_spec l 0);
      try contradiction; reflexivity.
Qed.

(** ** Splitting, trimming and joining texts *)

Module StrFacts.

Import Str.
Local Open Scope string_scope.

Lemma append_nil_r (s : string) : s ++ "" = s.
Proof. induction s as [| c s IH]; simpl; [reflexivity | now rewrite IH]. Qed.

Lemma append_assoc (a b c : string) : (a ++ b) ++ c = a ++ (b ++ c).
Proof. induction a as [| x a IH]; simpl; [reflexivity | now rewrite IH]. Qed.

Lemma rev_onto_app (s acc : string) : rev_onto s acc = rev s ++ acc.
Proof.
  unfold rev. revert acc. induction s as [| c s IH]; intros acc; simpl.
  - reflexivity.
  - rewrite IH, (IH (String c "")), append_assoc. reflexivity.
Qed.

Lemma rev_cons (c : ascii) (s : string) : rev (String c s) = rev s ++ String c "".
Proof. unfold rev at 1. simpl. apply rev_onto_app. Qed.

Lemma rev_app (a b : string) : rev (a ++ b) = rev b ++ rev a.
Proof.
  induction a as [| x a IH]; simpl.
  - change (rev "") with "". now rewrite append_nil_r.
  - now rewrite !rev_cons, IH, append_assoc.
Qed.

Lemma rev_involutive (s : string) : rev (rev s) = s.
Proof.
  induction s as [| c s IH]; [reflexivity |].
  rewrite rev_cons, rev_app, IH. reflexivity.
Qed.

Lemma trimStart_suffix (s : string) : exists pre, s = pre ++ trimStart s.
Proof.
  induction s as [| c s [pre IH]]; simpl.
  - now exists "".
  - destruct (is_space c).
    + exists (String c pre). simpl. now rewrite <- IH.
    + now exists "".
Qed.

Lemma trimStart_length (s : string) : (String.length (trimStart s) <= String.length s)%nat.
Proof.
  induction s as [| c s IH]; simpl; [lia |].
  destruct (is_space c); simpl; lia.
Qed.

Lemma trimStart_idem (s : string) : trimStart (trimStart s) = trimStart s.
Proof.
  induction s as [| c s IH]; simpl; [reflexivity |].
  destruct (is_space c) eqn:E; [assumption |]. simpl. now rewrite E.
Qed.

Lemma trimStart_fixed (c : ascii) (s : string) :
  trimStart (String c s) = String c s -> is_space c = false.
Proof.
  simpl. destruct (is_space c); [| reflexivity]. intros H.
  pose proof (trimStart_length s) as L. rewrite H in L. simpl in L. lia.
Qed.

(** What [trim] gives starts with no white space. *)
Lemma trim_trimStart (s : string) : trimStart (trim s) = trim s.
Proof.
  unfold trim. set (u := trimStart s).
  destruct (trimStart_suffix (rev u)) as [pre Hpre].
  set (v := trimStart (rev u)) in *.
  assert (Hu : u = rev v ++ rev pre).
  { rewrite <- (rev_involutive u), Hpre. apply rev_app. }
  assert (Hfix : trimStart u = u) by apply trimStart_idem.
  destruct (rev v) as [| c r] eqn:Er; [reflexivity |].
  rewrite Hu in Hfix. simpl append in Hfix. apply trimStart_fixed in Hfix.
  simpl. now rewrite Hfix.
Qed.

(** Trimming what is trimmed changes nothing. *)
Lemma trim_idem (s : string) : trim (trim s) = trim s.
Proof.
  unfold trim at 1. rewrite trim_trimStart. unfold trim.
  rewrite rev_involutive, trimStart_idem. reflexivity.
Qed.

Lemma trim_space (s : string) : trim (String " " s) = trim s.
Proof. reflexivity. Qed.

Lemma chars_app (a b : string) :
  list_ascii_of_string (a ++ b) = (list_ascii_of_string a ++ list_ascii_of_string b)%list.
Proof. induction a as [| x a IH]; simpl; [reflexivity | now rewrite IH]. Qed.

Lemma chars_rev (s : string) :
  list_ascii_of_string (rev s) = List.rev (list_ascii_of_string s).
Proof.
  induction s as [| c s IH]; [reflexivity |].
  rewrite rev_cons, chars_app, IH. reflexivity.
Qed.

Lemma In_trimStart (c : ascii) (s : string) :
  In c (list_ascii_of_string (trimStart s)) -> In c (list_ascii_of_string s).
Proof.
  destruct (trimStart_suffix s) as [pre H]. intros Hin. rewrite H, chars_app.
  apply in_or_app. now right.
Qed.

(** [trim] brings in no character. *)
Lemma In_trim (c : ascii) (s : string) :
  In c (list_ascii_of_string (trim s)) -> In c (list_ascii_of_string s).
Proof.
  unfold trim. rewrite chars_rev, <- in_rev. intros H.
  apply In_trimStart in H. rewrite chars_rev, <- in_rev in H.
  now apply In_trimStart in H.
Qed.

(** A text is its own and only piece exactly when the separator is not in it. *)
Lemma split_single (sep : ascii) (s : string) :
  split sep s = [s] <-> ~ In sep (list_ascii_of_string s).
Proof.
  induction s as [| c s IH]; simpl.
  - split; [intros _ [] | reflexivity].
  - destruct (Ascii.eqb_spec c sep) as [E | E].
    + split; [discriminate | intros H; exfalso; apply H; now left].
    + destruct (split sep s) as [| h t] eqn:Es.
      * split; [intros H | intros _].
        -- injection H as <-. simpl. intros [F | []]. contradiction.
        -- exfalso. destruct s; simpl in Es; [discriminate |].
           destruct (Ascii.eqb a sep); [discriminate |].
           destruct (split sep s); discriminate.
      * split; intros H.
        -- injection H as -> ->. intros [F | F]; [contradiction |].
           now apply (proj1 IH).
        -- assert (Hs : h :: t = [s]) by (apply IH; intros F; apply H; now right).
           injection Hs as -> ->. reflexivity.
Qed.

(** No piece of a split holds the separator. *)
Lemma split_pieces (sep : ascii) (s : string) :
  Forall (fun p => ~ In sep (list_ascii_of_string p)) (split sep s).
Proof.
  induction s as [| c s IH]; simpl.
  - constructor; [intros [] | constructor].
  - destruct (Ascii.eqb_spec c sep) as [E | E].
    + constructor; [intros [] | exact IH].
    + destruct (split sep s) as [| h t].
      * constructor; [| constructor]. simpl. intros [F | []]. contradiction.
      * inversion IH as [| ? ? Hh Ht]; subst. constructor; [| exact Ht].
        simpl. intros [F | F]; [contradiction | now apply Hh].
Qed.

Lemma split_app_sep (sep : ascii) (a b : string) :
  split sep a = [a] -> split sep (a ++ String sep b) = a :: split sep b.
Proof.
  rewrite split_single. induction a as [| c a IH]; simpl; intros H.
  - now rewrite Ascii.eqb_refl.
  - destruct (Ascii.eqb_spec c sep) as [E | E]; [exfalso; apply H; now left |].
    rewrite IH by (intros F; apply H; now right). reflexivity.
Qed.

Lemma split_join (x : string) (rest : list string) :
  Forall JobForm.tidy (x :: rest) ->
  split "," (JobForm.join (x :: rest)) = x :: map (String " ") rest.
Proof.
  revert x. induction rest as [| y rest IH]; intros x H.
  - inversion H as [| ? ? [_ [Hx _]] _]; subst. exact Hx.
  - inversion H as [| ? ? [_ [Hx _]] Hrest]; subst.
    change (JobForm.join (x :: y :: rest))
      with (x ++ String "," (String " " (JobForm.join (y :: rest)))).
    rewrite split_app_sep by exact Hx. f_equal.
    change (split "," (String " " (JobForm.join (y :: rest))))
      with (match split "," (JobForm.join (y :: rest)) with
            | h :: t => String " " h :: t
            | [] => [String " " ""]
            end).
    now rewrite IH.
Qed.

(** A list of tidy texts, joined and split again, is the list. *)
Lemma splitList_join (l : list string) :
  Forall JobForm.tidy l -> splitList (JobForm.strOr (JobForm.join l) "") = l.
Proof.
  intros H. destruct l as [| x rest]; [reflexivity |].
  assert (Hne : nonEmpty (JobForm.join (x :: rest)) = true).
  { inversion H as [| ? ? [Hx _] _]; subst.
    destruct x; [discriminate |]. destruct rest; reflexivity. }
  unfold JobForm.strOr. rewrite Hne. unfold splitList. rewrite split_join by exact H.
  clear Hne. simpl map.
  inversion H as [| ? ? [Nx [_ Tx]] Hrest]; subst. simpl. rewrite Tx, Nx. f_equal.
  clear H Nx Tx. induction Hrest as [| y rest [Ny [_ Ty]] _ IH]; [reflexivity |].
  simpl. rewrite trim_space, Ty, Ny. now rewrite IH.
Qed.

(** Every text that [splitList] gives is tidy. *)
Lemma splitList_tidy (s : string) : Forall JobForm.tidy (splitList s).
Proof.
  unfold splitList. pose proof (split_pieces "," s) as H.
  induction H as [| p l Hp _ IH]; simpl; [constructor |].
  destruct (nonEmpty (trim p)) eqn:E; [| exact IH].
  constructor; [| exact IH]. split; [exact E |]. split.
  - apply split_single. intros F. apply Hp. now apply In_trim.
  - apply trim_idem.
Qed.

End StrFacts.

(** X18. The majors and the locations of ASCII text come through the text
    box unharmed: a list of texts of ASCII characters that are not empty,
    hold no comma and have no white space at either end, joined with ", "
    as [loadJobData] does and split, trimmed and filtered as
    [buildRequirements] does, is the same list.  (Beyond ASCII, [trim]
    strips further characters, U+00A0 among them, which [Str.is_space] does
    not know.) *)
Theorem join_then_split (l : list string) :
  Forall JobForm.plain l ->
  Str.splitList (JobForm.strOr (JobForm.join l) "") = l.
Proof.
  intros H. apply StrFacts.splitList_join.
  eapply Forall_impl; [| exact H]. intros s [Hs _]. exact Hs.
Qed.

Lemma join_then_split_witness :
  Str.splitList
    (JobForm.strOr
       (JobForm.join ["Informatika"; "Teknik Komputer"; "Sistem Informasi"]%string) "")
  = ["Informatika"; "Teknik Komputer"; "Sistem Informasi"]%string.
Proof.
  apply (join_then_split ["Informatika"; "Teknik Komputer"; "Sistem Informasi"]%string).
  repeat (apply Forall_cons;
          [split; [split; [reflexivity | split; reflexivity]
                  | cbn [list_ascii_of_string];
                    repeat (apply Forall_cons; [apply Nat.ltb_lt; reflexivity |]);
                    apply Forall_nil] |]).
  apply Forall_nil.
Defined.

(** X19. What [buildRequirements] reads from the two text boxes is always
    a list of texts that are not empty, hold no comma and are trimmed, so
    writing that list back into the box and reading it again changes
    nothing. *)
Theorem splitList_settles (s : string) :
  Forall JobForm.tidy (Str.splitList s)
  /\ Str.splitList (JobForm.strOr (JobForm.join (Str.splitList s)) "")
     = Str.splitList s.
Proof.
  split; [apply StrFacts.splitList_tidy |].
  apply StrFacts.splitList_join, StrFacts.splitList_tidy.
Qed.

(** X20. A form that is saved, loaded and saved again sends the same
    requirements the second time, provided none of the six weights, the
    years of experience and the number of projects is 0 and the education
    level is not empty. *)
Theorem save_load_save (ident : Z) (created : string) (active : bool)
    (st st0 : JobTemplate.FormState) :
  let w := JobTemplate.weights st in
  JobTemplate.education w <> 0 -> JobTemplate.experience w <> 0 ->
  JobTemplate.skills w <> 0 -> JobTemplate.bootcamp w <> 0 ->
  JobTemplate.portfolio w <> 0 -> JobTemplate.location w <> 0 ->
  JobTemplate.experienceYears st <> 0 ->
  JobTemplate.minProjects st <> 0 ->
  JobTemplate.educationLevel st <> ""%string ->
  JobTemplate.buildRequirements
    (JobForm.loadJobData (JobForm.savedJob ident created active st) st0)
  = JobTemplate.buildRequirements st.
Proof.
  intros w. subst w.
  destruct st as [i b t d [e x s bc p l] lvl maj yrs req pref prov plat proj locs].
  cbn [JobTemplate.weights JobTemplate.education JobTemplate.experience
       JobTemplate.skills JobTemplate.bootcamp JobTemplate.portfolio
       JobTemplate.location JobTemplate.experienceYears JobTemplate.minProjects
       JobTemplate.educationLevel].
  intros He Hx Hs Hb Hp Hl Hy Hm Hlvl.
  unfold JobTemplate.buildRequirements, JobForm.loadJobData, JobForm.savedJob.
  cbn [JobTemplate.weights JobTemplate.education JobTemplate.experience
       JobTemplate.skills JobTemplate.bootcamp JobTemplate.portfolio
       JobTemplate.location JobTemplate.experienceYears JobTemplate.minProjects
       JobTemplate.educationLevel JobTemplate.educationMajors
       JobTemplate.requiredSkills JobTemplate.preferredSkills
       JobTemplate.bootcampProviders JobTemplate.portfolioPlatforms
       JobTemplate.allowedLocations ApiData.job_requirements
       JobTemplate.buildRequirements
       Api.education Api.experience Api.skills Api.bootcamp Api.portfolio Api.location
       Api.edu_weight Api.exp_weight Api.sk_weight Api.bc_weight Api.pf_weight
       Api.loc_weight Api.edu_min_level Api.edu_preferred_major Api.exp_min_years
       Api.sk_required Api.sk_preferred Api.bc_preferred_providers
       Api.pf_preferred_platforms Api.pf_min_projects Api.loc_allowed].
  rewrite !StrFacts.splitList_join by apply StrFacts.splitList_tidy.
  unfold JobForm.numOr, JobForm.strOr.
  destruct (Z.eqb_spec e 0), (Z.eqb_spec x 0), (Z.eqb_spec s 0),
           (Z.eqb_spec bc 0), (Z.eqb_spec p 0), (Z.eqb_spec l 0),
           (Z.eqb_spec yrs 0), (Z.eqb_spec proj 0); try contradiction.
  destruct lvl; [contradiction | reflexivity].
Qed.

Lemma save_load_save_witness :
  JobTemplate.buildRequirements
    (JobForm.loadJobData (JobForm.savedJob 1 "2026-01-01" true MoreSamples.form)
       MoreSamples.form)
  = JobTemplate.buildRequirements MoreSamples.form.
Proof.
  apply (save_load_save 1 "2026-01-01" true MoreSamples.form MoreSamples.form);
    discriminate.
Defined.

(** X21. Moving one slider sets its weight and leaves the five others.
    With whole weights from 0 to 100, as the sliders give them, the fold of
    doubles gives the double of the sum before and after, and the total
    moves by the difference between the new and the old value of that
    weight. *)
Theorem slider_moves_total (key : JobTemplate.WeightKey) (value : Z)
    (prev : JobTemplate.WeightState) :
  JobTemplateDoubles.slider prev ->
  0 <= value <= 100 ->
  let read (k : JobTemplate.WeightKey) (w : JobTemplate.WeightState) :=
    match k with
    | JobTemplate.k_education => JobTemplate.education w
    | JobTemplate.k_experience => JobTemplate.experience w
    | JobTemplate.k_skills => JobTemplate.skills w
    | JobTemplate.k_bootcamp => JobTemplate.bootcamp w
    | JobTemplate.k_portfolio => JobTemplate.portfolio w
    | JobTemplate.k_location => JobTemplate.location w
    end in
  let next := JobTemplate.handleWeightChange key value prev in
  read key next = value
  /\ (forall k, k <> key -> read k next = read k prev)
  /\ JobTemplateDoubles.totalWeight (JobTemplateDoubles.ofWhole prev)
     = JobTemplateDoubles.ofZ (JobTemplate.totalWeight prev)
  /\ JobTemplateDoubles.totalWeight (JobTemplateDoubles.ofWhole next)
     = JobTemplateDoubles.ofZ (JobTemplate.totalWeight prev + value - read key prev)
  /\ JobTemplate.totalWeight next = JobTemplate.totalWeight prev + value - read key prev.
Proof.
  intros Hw Hv read next. subst read next. split; [now destruct key |]. split.
  - intros k Hk. destruct key, k; try reflexivity; contradiction.
  - split; [now apply JobTemplateFacts.totalWeight_exact |].
    rewrite <- JobTemplateFacts.handleWeightChange_total.
    split; [| reflexivity].
    apply JobTemplateFacts.totalWeight_exact.
    now apply JobTemplateFacts.handleWeightChange_slider.
Qed.

Lemma slider_moves_total_witness :
  JobTemplateDoubles.totalWeight
    (JobTemplateDoubles.ofWhole
       (JobTemplate.handleWeightChange JobTemplate.k_skills 30 Samples.uneven))
  = JobTemplateDoubles.ofZ
      (JobTemplate.totalWeight Samples.uneven + 30 - JobTemplate.skills Samples.uneven).
Proof.
  assert (Hw : JobTemplateDoubles.slider Samples.uneven).
  { unfold JobTemplateDoubles.slider. simpl.
    repeat (apply Forall_cons; [simpl; lia |]). apply Forall_nil. }
  assert (Hv : 0 <= 30 <= 100) by lia.
  exact (proj1 (proj2 (proj2 (proj2
           (slider_moves_total JobTemplate.k_skills 30 Samples.uneven Hw Hv))))).
Defined.

(** X22. The row of a file that the back end scored shows the name of the
    candidate when the answer carries one that is not empty and the name of
    the file otherwise, and its score links to the candidate unless the
    candidate id is 0; its status tag is "Scored" and its score the total
    score of the answer. *)
Theorem computed_upload_row (env : UploadCV.Env)
    (files prev : list UploadCV.UploadedFile) (file : DomFile.t)
    (result : UploadCV.ScoreResult) :
  UploadCV.accepted files file ->
  UploadCV.backendAvailable env = Some true ->
  UploadCV.scoreCV env file (UploadCV.jobIdOr1 (UploadCV.job env)) true
  = UploadCV.Resolved result ->
  exists (rest : list UploadCV.UploadedFile) (e : UploadCV.UploadedFile),
    UploadCV.run (UploadCV.updaters (UploadCV.processFile env files file)) prev
    = rest ++ [e]
    /\ UploadCV.row_label (UploadCV.renderRow e)
       = match UploadCV.candidate_name result with
         | Some (c :: n) => c :: n
         | _ => DomFile.name file
         end
    /\ UploadCV.row_tag (UploadCV.renderRow e) = UploadCV.TagScored
    /\ UploadCV.row_score (UploadCV.renderRow e)
       = Some {| UploadCV.link_to :=
                   if UploadCV.candidate_id result =? 0 then None
                   else Some (UploadCV.candidate_id result);
                 UploadCV.link_color :=
                   UploadCV.getScoreColor (UploadCV.total_score result);
                 UploadCV.link_value := UploadCV.total_score result |}.
Proof.
  intros Hacc Hb Hr.
  rewrite (UploadFacts.run_resolved env files prev file result Hacc Hb Hr).
  eexists. eexists. split; [reflexivity |].
  unfold UploadCV.renderRow. simpl.
  destruct (UploadCV.candidate_name result) as [[| c n] |]; simpl;
    destruct (UploadCV.candidate_id result =? 0); simpl; repeat split.
Qed.

Lemma computed_upload_row_witness :
  exists (rest : list UploadCV.UploadedFile) (e : UploadCV.UploadedFile),
    UploadCV.run (UploadCV.updaters
                    (UploadCV.processFile (Samples.online 7) [] Samples.cv)) []
    = rest ++ [e]
    /\ UploadCV.row_label (UploadCV.renderRow e)
       = match UploadCV.candidate_name (Samples.answer 7) with
         | Some (c :: n) => c :: n
         | _ => DomFile.name Samples.cv
         end
    /\ UploadCV.row_tag (UploadCV.renderRow e) = UploadCV.TagScored
    /\ UploadCV.row_score (UploadCV.renderRow e)
       = Some {| UploadCV.link_to :=
                   if UploadCV.candidate_id (Samples.answer 7) =? 0 then None
                   else Some (UploadCV.candidate_id (Samples.answer 7));
                 UploadCV.link_color :=
                   UploadCV.getScoreColor (UploadCV.total_score (Samples.answer 7));
                 UploadCV.link_value := UploadCV.total_score (Samples.answer 7) |}.
Proof.
  apply (computed_upload_row (Samples.online 7) [] [] Samples.cv (Samples.answer 7)).
  - split; reflexivity.
  - reflexivity.
  - reflexivity.
Defined.
